(** * vu/surface.go : height field to mesh conversion

    A shallow embedding of [surface.go] (package vu): the [surface] type,
    its constructor [newSurface], the accessors [Pts] and [Resize] and the
    mesh rebuild [Update].

    - Go [float32] values are IEEE-754 binary32 numbers, embedded with the
      executable specification [SpecFloat] of the Standard Library
      (precision 24, maximal exponent 128, round to nearest even).
    - Go [int] is the 64 bit signed integer of the usual platforms; the two
      additions on caller supplied offsets wrap around.  [uint16] wraps
      modulo 65536.
    - Go slices are a backing array with a length; the capacity is the
      length of the backing array.  Indexing and re-slicing out of range
      panic.
    - A run-time panic is the [Panic] result. *)

From Stdlib Require Import ZArith Lia Bool.
From Stdlib Require Import Floats.SpecFloat.
From stdpp Require Import base option list list_numbers gmap.

Local Open Scope Z_scope.

(** ** Results of computations that may panic *)

Inductive panic : Type :=
  | IndexOutOfRange
  | SliceBoundsOutOfRange
  | MakeLenOutOfRange
  | IntegerDivideByZero.

Inductive result (A : Type) : Type :=
  | Ok (a : A)
  | Panic (p : panic).
Arguments Ok {A} a.
Arguments Panic {A} p.

#[global] Instance result_ret : MRet result := fun A a => Ok a.
#[global] Instance result_bind : MBind result := fun A B f r =>
  match r with
  | Ok a => f a
  | Panic p => Panic p
  end.

(** A [for] loop over the elements of [l], threading the loop state. *)
Fixpoint foldM {St A : Type} (f : St -> A -> result St) (s : St) (l : list A)
  : result St :=
  match l with
  | [] => Ok s
  | a :: l' => s' ← f s a; foldM f s' l'
  end.

(** ** Machine integers *)

Definition int_bits : Z := 64.

(** Two's complement wrap-around of Go's [int]. *)
Definition wrap_int (z : Z) : Z :=
  (z + 2 ^ (int_bits - 1)) mod 2 ^ int_bits - 2 ^ (int_bits - 1).

(** Wrap-around of [uint16]. *)
Definition wrap16 (z : Z) : Z := z mod 65536.

(** ** float32 *)

Module F32.
Definition t : Type := spec_float.
Definition prec : Z := 24.
Definition emax : Z := 128.

Definition add : t -> t -> t := SFadd prec emax.
Definition sub : t -> t -> t := SFsub prec emax.
Definition mul : t -> t -> t := SFmul prec emax.
Definition div : t -> t -> t := SFdiv prec emax.
Definition opp : t -> t := SFopp.
(** Go's [==], [<=] and [<] on floats. *)
Definition eqb : t -> t -> bool := SFeqb.
Definition ltb : t -> t -> bool := SFltb.

(** [float32(i)] for an integer [i]. *)
Definition of_int (z : Z) : t := binary_normalize prec emax z 0 false.

Definition zero : t := S754_zero false.
Definition one : t := of_int 1.
Definition two : t := of_int 2.

(** [float64(x)]: exact. *)
Definition to_f64 (x : t) : spec_float :=
  match x with
  | S754_finite s m e => binary_round 53 1024 s m e
  | _ => x
  end.
(** [float32(d)] for a float64 [d]: rounds to nearest even. *)
Definition of_f64 (d : spec_float) : t :=
  match d with
  | S754_finite s m e => binary_round prec emax s m e
  | _ => d
  end.
(** [float32(math.Sqrt(float64(x)))]. *)
Definition sqrt (x : t) : t := of_f64 (SFsqrt 53 1024 (to_f64 x)).

(** The constant [float32(0.001)]: 8589935 * 2^-33. *)
Definition border : t := S754_finite false 8589935 (-33).
(** The float32 nearest to 0.999: 16760439 * 2^-24. *)
Definition c0_999 : t := S754_finite false 16760439 (-24).
End F32.

Abbreviation float32 := F32.t.

(** ** Slices *)

Record slice (A : Type) : Type := Slice { arr : list A; len : Z }.
Arguments Slice {A} arr len.
Arguments arr {A} s.
Arguments len {A} s.

Section Slices.
Context {A : Type}.

Definition cap (s : slice A) : Z := Z.of_nat (length (arr s)).

(** [make([]A, n)]: [n] zero values. *)
Definition make (zero : A) (n : Z) : result (slice A) :=
  if n <? 0 then Panic MakeLenOutOfRange
  else Ok (Slice (replicate (Z.to_nat n) zero) n).

(** [s[:n]]: allowed up to the capacity. *)
Definition reslice (s : slice A) (n : Z) : result (slice A) :=
  if (0 <=? n) && (n <=? cap s) then Ok (Slice (arr s) n)
  else Panic SliceBoundsOutOfRange.

(** [s[i]] read. *)
Definition index (s : slice A) (i : Z) : result A :=
  if (0 <=? i) && (i <? len s) then
    match arr s !! Z.to_nat i with
    | Some a => Ok a
    | None => Panic IndexOutOfRange
    end
  else Panic IndexOutOfRange.

(** [s[i] = v]. *)
Definition store (s : slice A) (i : Z) (v : A) : result (slice A) :=
  if (0 <=? i) && (i <? len s) then
    match arr s !! Z.to_nat i with
    | Some _ => Ok (Slice (<[Z.to_nat i := v]> (arr s)) (len s))
    | None => Panic IndexOutOfRange
    end
  else Panic IndexOutOfRange.

(** The elements a holder of the slice can see. *)
Definition view (s : slice A) : list A := take (Z.to_nat (len s)) (arr s).

Definition slice_ok (s : slice A) : bool :=
  (0 <=? len s) && (len s <=? cap s).
End Slices.

Definition nil_slice {A : Type} : slice A := Slice [] 0.

Section Slices2.
Context {A : Type}.

(** [g[x][y]] read. *)
Definition index2 (g : slice (slice A)) (x y : Z) : result A :=
  row ← index g x; index row y.

(** [g[x][y] = v]: the row header is read, its backing array written. *)
Definition store2 (g : slice (slice A)) (x y : Z) (v : A)
  : result (slice (slice A)) :=
  row ← index g x; row' ← store row y v; store g x row'.

(** All visible rows are valid slices of length [sy], [sx] of them. *)
Definition rect_ok (g : slice (slice A)) (sx sy : Z) : bool :=
  slice_ok g && (len g =? sx)
  && forallb (fun r => slice_ok r && (len r =? sy)) (view g).

(** At least [sx] rows of at least [sy] elements. *)
Definition covers (g : slice (slice A)) (sx sy : Z) : bool :=
  slice_ok g && (sx <=? len g)
  && forallb (fun r => slice_ok r && (sy <=? len r)) (view g).
End Slices2.

(** ** The data model *)

Record SurfacePoint : Type := mkPoint {
  Height : float32;
  Tindex : Z;
  Blend : float32 }.

Definition zeroPoint : SurfacePoint := mkPoint F32.zero 0 F32.zero.

Record xyz : Type := mkXyz { x_ : float32; y_ : float32; z_ : float32 }.

Definition zeroXyz : xyz := mkXyz F32.zero F32.zero F32.zero.

Record surface : Type := mkSurface {
  tratio : float32;
  scale : float32;
  spread : Z;
  pts : slice (slice SurfacePoint);
  vb : list float32;
  nb : list float32;
  tb : list float32;
  fb : list Z;
  nms : slice (slice xyz) }.

Definition set_pts (s : surface) (p : slice (slice SurfacePoint)) : surface :=
  mkSurface (tratio s) (scale s) (spread s) p (vb s) (nb s) (tb s) (fb s) (nms s).

Definition set_nms (s : surface) (n : slice (slice xyz)) : surface :=
  mkSurface (tratio s) (scale s) (spread s) (pts s) (vb s) (nb s) (tb s) (fb s) n.

(** ** The mesh sink *)

Inductive usage : Type := StaticDraw | DynamicDraw.

Record region : Type := mkRegion {
  r_span : Z;
  r_usage : usage;
  r_normalize : bool;
  r_data : list float32 }.

(** Modelled from the spec: the [Model] interface, which [Update] only
    calls ([InitMesh], [SetMeshData], [InitFaces], [SetFaces]).  The sink holds one typed region per vertex
    attribute location, with its component width and usage hint, and one
    region of 16 bit triangle indices; delivering a buffer replaces what
    the sink held for that region. *)
Record Model : Type := mkModel {
  meshes : gmap Z region;
  faces : option (usage * list Z) }.

Definition InitMesh (lloc span : Z) (u : usage) (normalize : bool) (m : Model)
  : Model :=
  mkModel (<[lloc := mkRegion span u normalize []]> (meshes m)) (faces m).

Definition SetMeshData (lloc : Z) (data : list float32) (m : Model) : Model :=
  mkModel
    (alter (fun r => mkRegion (r_span r) (r_usage r) (r_normalize r) data)
       lloc (meshes m))
    (faces m).

Definition InitFaces (u : usage) (m : Model) : Model :=
  mkModel (meshes m) (Some (u, [])).

Definition SetFaces (data : list Z) (m : Model) : Model :=
  mkModel (meshes m)
    (match faces m with Some (u, _) => Some (u, data) | None => None end).

(** ** newSurface *)

Definition newSurface (sx sy spread : Z) (textureRatio scale : float32)
  : result surface :=
  pts0 ← make nil_slice sx;
  pts1 ← foldM (fun p x => row ← make zeroPoint sy; store p x row)
               pts0 (seqZ 0 (len pts0));
  nms0 ← make nil_slice (len pts1);
  nms1 ← foldM (fun n x => r0 ← index pts1 0;
                           row ← make zeroXyz (len r0); store n x row)
               nms0 (seqZ 0 (len nms0));
  Ok (mkSurface textureRatio scale spread pts1 [] [] [] [] nms1).

(** ** Pts and Resize *)

Definition Pts (s : surface) : slice (slice SurfacePoint) := pts s.

(** The sample values [Pts] exposes, row by row. *)
Definition grid (s : surface) : list (list SurfacePoint) :=
  view <$> view (Pts s).

(** [Resize] assigns [s.pts] first and re-slices the rows afterwards: a
    panic in the row loop leaves the new width in place.  The surface at
    the time of the panic is returned next to the result. *)
Definition Resize (s : surface) (w h : Z) : surface * result unit :=
  match reslice (pts s) w with
  | Panic p => (s, Panic p)
  | Ok p0 =>
      match foldM (fun p sx => row ← index p sx; row' ← reslice row h;
                               store p sx row')
                  p0 (seqZ 0 (len p0)) with
      | Ok p1 => (set_pts s p1, Ok tt)
      | Panic e => (set_pts s p0, Panic e)
      end
  end.

(** ** Update *)

(** Lines 136-139: the unit length normal for the two slopes. *)
Definition unit_normal (yScale xslope yslope : float32) : xyz :=
  let xzScale := F32.one in
  let nx := F32.mul (F32.opp xslope) yScale in
  let ny := F32.mul F32.two xzScale in
  let nz := F32.mul yslope yScale in
  let length :=
    F32.sqrt (F32.add (F32.add (F32.mul nx nx) (F32.mul ny ny))
                      (F32.mul nz nz)) in
  mkXyz (F32.div nx length) (F32.div ny length) (F32.div nz length).

(** Lines 110-134: the two slopes at grid point [(x, y)], from the
    clamped neighbours, doubled on the boundary. *)
Definition normal_at (s : surface) (sx sy x y : Z) : result xyz :=
  let xmax := if x <? sx - 1 then x + 1 else x in
  let xmin := if 0 <? x then x - 1 else x in
  pxmax ← index2 (pts s) xmax y;
  pxmin ← index2 (pts s) xmin y;
  let xslope := F32.sub (Height pxmax) (Height pxmin) in
  let xslope := if (x =? 0) || (x =? sx - 1) then F32.mul xslope F32.two
                else xslope in
  let ymax := if y <? sy - 1 then y + 1 else y in
  let ymin := if 0 <? y then y - 1 else y in
  pymax ← index2 (pts s) x ymax;
  pymin ← index2 (pts s) x ymin;
  let yslope := F32.sub (Height pymax) (Height pymin) in
  let yslope := if (y =? 0) || (y =? sy - 1) then F32.mul yslope F32.two
                else yslope in
  Ok (unit_normal (scale s) xslope yslope).

(** Lines 107-141: the normal of every grid point, into the scratch. *)
Definition normals (s : surface) (sx sy : Z) : result (slice (slice xyz)) :=
  foldM (fun norms x =>
           foldM (fun norms y =>
                    n ← normal_at s sx sy x y; store2 norms x y n)
                 norms (seqZ 0 sy))
        (nms s) (seqZ 0 sx).

(** The eight texture coordinates of one quad. *)
Record uvs : Type := mkUvs {
  uv0 : float32; uv1 : float32; uv2 : float32; uv3 : float32;
  uv4 : float32; uv5 : float32; uv6 : float32; uv7 : float32 }.

(** Lines 144-146 and 165-189, for the remainders [rx = (x+xoff)%spread]
    and [ry = (y+yoff)%spread]. *)
Definition uv_corners (spread : Z) (textureRatio : float32) (rx ry : Z) : uvs :=
  let width := F32.div textureRatio (F32.of_int spread) in
  let border := F32.border in
  let basex := F32.div (F32.of_int rx) (F32.of_int spread) in
  let basey :=
    F32.sub (F32.sub F32.one (F32.div (F32.of_int ry) (F32.of_int spread)))
            (F32.div F32.one (F32.of_int spread)) in
  let uv0 := F32.mul basex textureRatio in
  let uv1 := F32.add (F32.mul basey textureRatio) width in
  let uv2 := F32.add (F32.mul basex textureRatio) width in
  let uv3 := F32.add (F32.mul basey textureRatio) width in
  let uv4 := F32.mul basex textureRatio in
  let uv5 := F32.mul basey textureRatio in
  let uv6 := F32.add (F32.mul basex textureRatio) width in
  let uv7 := F32.mul basey textureRatio in
  let '(uv0, uv4) :=
    if F32.eqb uv0 F32.zero
    then (F32.add uv0 border, F32.add uv4 border) else (uv0, uv4) in
  let '(uv2, uv6) :=
    if F32.eqb uv2 textureRatio
    then (F32.sub uv2 border, F32.sub uv6 border) else (uv2, uv6) in
  let '(uv5, uv7) :=
    if F32.eqb uv5 F32.zero
    then (F32.add uv5 border, F32.add uv7 border) else (uv5, uv7) in
  let '(uv1, uv3) :=
    if F32.eqb uv1 textureRatio
    then (F32.sub uv1 border, F32.sub uv3 border) else (uv1, uv3) in
  mkUvs uv0 uv1 uv2 uv3 uv4 uv5 uv6 uv7.

(** The integer remainder [%] panics on a zero divisor; it truncates
    towards zero, as [Z.rem]. *)
Definition uvpack (spread : Z) (textureRatio : float32) (x y xoff yoff : Z)
  : result uvs :=
  if spread =? 0 then Panic IntegerDivideByZero
  else Ok (uv_corners spread textureRatio
             (Z.rem (wrap_int (x + xoff)) spread)
             (Z.rem (wrap_int (y + yoff)) spread)).

(** The local buffers of one rebuild and the vertex counter. *)
Record bufs : Type := mkBufs {
  b_vb : list float32;
  b_nb : list float32;
  b_tb : list float32;
  b_fb : list Z;
  b_vc : Z }.

Definition quad_vb (hscale : float32) (x y : Z) (p0 p1 p2 p3 : SurfacePoint)
  : list float32 :=
  [F32.of_int x; F32.of_int y; F32.mul (Height p0) hscale;
   F32.of_int (x + 1); F32.of_int y; F32.mul (Height p1) hscale;
   F32.of_int x; F32.of_int (y + 1); F32.mul (Height p2) hscale;
   F32.of_int (x + 1); F32.of_int (y + 1); F32.mul (Height p3) hscale].

Definition quad_tb (uv : uvs) (p : SurfacePoint) : list float32 :=
  let tindex := F32.of_int (Tindex p) in
  let blend := Blend p in
  [uv0 uv; uv1 uv; tindex; blend;
   uv2 uv; uv3 uv; tindex; blend;
   uv4 uv; uv5 uv; tindex; blend;
   uv6 uv; uv7 uv; tindex; blend].

Definition quad_fb (vc : Z) : list Z :=
  [vc; wrap16 (vc + 1); wrap16 (vc + 2);
   wrap16 (vc + 1); wrap16 (vc + 3); wrap16 (vc + 2)].

Definition quad_nb (n0 n1 n2 n3 : xyz) : list float32 :=
  [x_ n0; y_ n0; z_ n0; x_ n1; y_ n1; z_ n1;
   x_ n2; y_ n2; z_ n2; x_ n3; y_ n3; z_ n3].

(** Lines 153-204: one quad.  Reads and the remainder come in the order
    of the source; the appends to the local buffers follow. *)
Definition quad (s : surface) (norms : slice (slice xyz)) (xoff yoff : Z)
    (x : Z) (b : bufs) (y : Z) : result bufs :=
  let hscale := scale s in
  p0 ← index2 (pts s) x y;
  p1 ← index2 (pts s) (x + 1) y;
  p2 ← index2 (pts s) x (y + 1);
  p3 ← index2 (pts s) (x + 1) (y + 1);
  uv ← uvpack (spread s) (tratio s) x y xoff yoff;
  p ← index2 (pts s) x y;
  n0 ← index2 norms x y;
  n1 ← index2 norms (x + 1) y;
  n2 ← index2 norms x (y + 1);
  n3 ← index2 norms (x + 1) (y + 1);
  Ok (mkBufs (b_vb b ++ quad_vb hscale x y p0 p1 p2 p3)
             (b_nb b ++ quad_nb n0 n1 n2 n3)
             (b_tb b ++ quad_tb uv p)
             (b_fb b ++ quad_fb (b_vc b))
             (wrap16 (b_vc b + 4))).

(** Lines 151-206. *)
Definition quads (s : surface) (norms : slice (slice xyz)) (sx sy xoff yoff : Z)
    (b : bufs) : result bufs :=
  foldM (fun b x => foldM (quad s norms xoff yoff x) b (seqZ 0 (sy - 1)))
        b (seqZ 0 (sx - 1)).

(** Lines 207-210. *)
Definition deliver (m : Model) (b : bufs) : Model :=
  let m := SetMeshData 0 (b_vb b) (InitMesh 0 3 DynamicDraw false m) in
  let m := SetMeshData 1 (b_nb b) (InitMesh 1 3 DynamicDraw false m) in
  let m := SetMeshData 2 (b_tb b) (InitMesh 2 4 DynamicDraw false m) in
  SetFaces (b_fb b) (InitFaces DynamicDraw m).

(** Lines 96-206 of [Update]: everything before the hand-over to the
    sink.  The local buffers start as the empty prefix of the scratch
    fields, which are read and never assigned. *)
Definition rebuild (s : surface) (xoff yoff : Z)
  : result (slice (slice xyz) * bufs) :=
  let b0 := mkBufs (take 0 (vb s)) (take 0 (nb s)) (take 0 (tb s))
                   (take 0 (fb s)) 0 in
  row0 ← index (pts s) 0;
  let sx := len (pts s) in
  let sy := len row0 in
  norms ← normals s sx sy;
  b ← quads s norms sx sy xoff yoff b0;
  Ok (norms, b).

(** [Update]: the scratch normals are written in place, so the surface
    comes back with them; the local buffers go to the sink. *)
Definition Update (s : surface) (m : Model) (xoff yoff : Z)
  : result (surface * Model) :=
  nb ← rebuild s xoff yoff;
  Ok (set_nms s nb.1, deliver m nb.2).

(** ** Reading the grid outside of a panic

    Total readers, used to state what a rebuild produces: the sample and
    the normal at a grid point, and the closed form of the four buffers. *)

Definition pt (s : surface) (x y : Z) : SurfacePoint :=
  match index2 (pts s) x y with Ok p => p | Panic _ => zeroPoint end.

Definition nrm (s : surface) (sx sy x y : Z) : xyz :=
  match normal_at s sx sy x y with Ok n => n | Panic _ => zeroXyz end.

(** Shape invariants, pointwise: [sx] rows of exactly, or at least, [sy]
    visible elements. *)
Definition Rect {A : Type} (g : slice (slice A)) (sx sy : Z) : Prop :=
  forall x, 0 <= x < sx ->
    exists r, index g x = Ok r /\ slice_ok r = true /\ len r = sy.

Definition Covers {A : Type} (g : slice (slice A)) (sx sy : Z) : Prop :=
  forall x, 0 <= x < sx ->
    exists r, index g x = Ok r /\ slice_ok r = true /\ sy <= len r.

(** The quads of a [sx] by [sy] grid in the order of the two loops. *)
Definition cells (sx sy : Z) : list (Z * Z) :=
  x ← seqZ 0 (sx - 1); y ← seqZ 0 (sy - 1); [(x, y)].

(** The remainders of line 165 and 166 for the quad at [(x, y)]. *)
Definition tile (s : surface) (xoff yoff : Z) (c : Z * Z) : uvs :=
  uv_corners (spread s) (tratio s)
    (Z.rem (wrap_int (c.1 + xoff)) (spread s))
    (Z.rem (wrap_int (c.2 + yoff)) (spread s)).

Definition mesh_vb (s : surface) (sx sy : Z) : list float32 :=
  c ← cells sx sy;
  quad_vb (scale s) c.1 c.2 (pt s c.1 c.2) (pt s (c.1 + 1) c.2)
          (pt s c.1 (c.2 + 1)) (pt s (c.1 + 1) (c.2 + 1)).

Definition mesh_nb (s : surface) (sx sy : Z) : list float32 :=
  c ← cells sx sy;
  quad_nb (nrm s sx sy c.1 c.2) (nrm s sx sy (c.1 + 1) c.2)
          (nrm s sx sy c.1 (c.2 + 1)) (nrm s sx sy (c.1 + 1) (c.2 + 1)).

Definition mesh_tb (s : surface) (sx sy xoff yoff : Z) : list float32 :=
  c ← cells sx sy; quad_tb (tile s xoff yoff c) (pt s c.1 c.2).

(** The face buffer of [n] quads: quad [k] starts at vertex [4k], in
    16 bit arithmetic. *)
Definition mesh_fb (n : nat) : list Z :=
  k ← seq 0 n; quad_fb (wrap16 (4 * Z.of_nat k)).

Definition mesh (s : surface) (sx sy xoff yoff : Z) : bufs :=
  mkBufs (mesh_vb s sx sy) (mesh_nb s sx sy) (mesh_tb s sx sy xoff yoff)
         (mesh_fb (length (cells sx sy)))
         (wrap16 (4 * Z.of_nat (length (cells sx sy)))).

(** What one pass of the second loop body appends, with total readers. *)
Definition emit (s : surface) (sx sy xoff yoff : Z) (b : bufs) (c : Z * Z)
  : bufs :=
  mkBufs
    (b_vb b ++ quad_vb (scale s) c.1 c.2 (pt s c.1 c.2) (pt s (c.1 + 1) c.2)
                       (pt s c.1 (c.2 + 1)) (pt s (c.1 + 1) (c.2 + 1)))
    (b_nb b ++ quad_nb (nrm s sx sy c.1 c.2) (nrm s sx sy (c.1 + 1) c.2)
                       (nrm s sx sy c.1 (c.2 + 1))
                       (nrm s sx sy (c.1 + 1) (c.2 + 1)))
    (b_tb b ++ quad_tb (tile s xoff yoff c) (pt s c.1 c.2))
    (b_fb b ++ quad_fb (b_vc b))
    (wrap16 (b_vc b + 4)).

(** The surface [newSurface] returns: [sx] rows of [sy] zero samples and a
    scratch of the same shape. *)
Definition fresh (sx sy spread : Z) (textureRatio scale : float32) : surface :=
  let rows {A : Type} (z : A) :=
    Slice (replicate (Z.to_nat sx) (Slice (replicate (Z.to_nat sy) z) sy)) sx in
  mkSurface textureRatio scale spread (rows zeroPoint) [] [] [] []
            (rows zeroXyz).

(** The 3 by 3 surface of [newSurface 3 3 1 1.0 1] after the terrain
    generator has written texture indices [ti] and blend weights [bl],
    all heights left at 0. *)
Definition flat3 (ti : Z -> Z -> Z) (bl : Z -> Z -> float32) : surface :=
  let row x :=
    Slice [mkPoint F32.zero (ti x 0) (bl x 0);
           mkPoint F32.zero (ti x 1) (bl x 1);
           mkPoint F32.zero (ti x 2) (bl x 2)] 3 in
  mkSurface F32.one F32.one 1 (Slice [row 0; row 1; row 2] 3) [] [] [] []
            (nms (fresh 3 3 1 F32.one F32.one)).

(** Go's [==] on every component. *)
Definition feq (a b : float32) : Prop := F32.eqb a b = true.

(** Neither an infinity nor a NaN. *)
Definition finite (f : float32) : bool :=
  match f with
  | S754_zero _ | S754_finite _ _ _ => true
  | S754_infinity _ | S754_nan => false
  end.

(** A 4 by 2 surface whose heights rise by one per step along x. *)
Definition ramp4 : surface :=
  let row x :=
    Slice [mkPoint (F32.of_int x) 0 F32.zero;
           mkPoint (F32.of_int x) 0 F32.zero] 2 in
  mkSurface F32.one F32.one 1 (Slice [row 0; row 1; row 2; row 3] 4)
            [] [] [] [] (nms (fresh 4 2 1 F32.one F32.one)).

(** ** The band of the texture coordinates *)







(** Lines 34-36: the exported constructor hands its arguments on. *)
Definition NewSurface (sx sy spread : Z) (textureRatio scale : float32)
  : result surface :=
  newSurface sx sy spread textureRatio scale.

(** * Properties *)

(** ** The result monad and loops *)

Lemma bind_Ok {A B : Type} (r : result A) (f : A -> result B) (b : B) :
  r ≫= f = Ok b -> exists a, r = Ok a /\ f a = Ok b.
Proof. destruct r as [a|p]; simpl; [eauto | discriminate]. Qed.

(** A counting loop with an invariant on the loop state. *)
Lemma for_loop_inv {St : Type} (f : St -> Z -> result St)
    (I : Z -> St -> Prop) (n : Z) (s : St) :
  0 <= n -> I 0 s ->
  (forall i t, 0 <= i < n -> I i t -> exists t', f t i = Ok t' /\ I (i + 1) t') ->
  exists t, foldM f s (seqZ 0 n) = Ok t /\ I n t.
Proof.
  intros Hn H0 Hstep.
  assert (G : forall k m t, 0 <= m -> m + Z.of_nat k = n -> I m t ->
            exists t', foldM f t (seqZ m (Z.of_nat k)) = Ok t' /\ I n t').
  { induction k as [|k IH]; intros m t Hm Hk Hi.
    - rewrite seqZ_nil by lia. simpl. exists t. split; [done|].
      replace n with m by lia. done.
    - rewrite seqZ_cons by lia. simpl.
      destruct (Hstep m t) as (t' & Hf & Hi'); [lia|done|].
      rewrite Hf. simpl.
      replace (Z.pred (Z.of_nat (S k))) with (Z.of_nat k) by lia.
      apply IH; [lia|lia|]. by replace (Z.succ m) with (m + 1) by lia. }
  destruct (G (Z.to_nat n) 0 s) as (t & Ht & Hi); [lia|lia|done|].
  rewrite Z2Nat.id in Ht by lia. eauto.
Qed.

(** A loop whose body cannot panic is a left fold. *)
Lemma foldM_pure {St A : Type} (f : St -> A -> result St)
    (g : St -> A -> St) (l : list A) (s : St) :
  (forall a t, a ∈ l -> f t a = Ok (g t a)) ->
  foldM f s l = Ok (foldl g s l).
Proof.
  revert s. induction l as [|a l IH]; intros s H; simpl; [done|].
  rewrite H by left. simpl. apply IH. intros b t Hb. apply H. by right.
Qed.

Lemma foldM_nil_range {St : Type} (f : St -> Z -> result St) (s : St) (n : Z) :
  n <= 0 -> foldM f s (seqZ 0 n) = Ok s.
Proof. intros. by rewrite seqZ_nil. Qed.

(** ** Slices *)

Section SliceFacts.
Context {A : Type}.
Implicit Types (s : slice A) (g : slice (slice A)).

Lemma slice_ok_spec s : slice_ok s = true <-> 0 <= len s <= cap s.
Proof. unfold slice_ok. rewrite andb_true_iff. lia. Qed.

Lemma index_Ok s i a :
  index s i = Ok a <-> 0 <= i < len s /\ arr s !! Z.to_nat i = Some a.
Proof.
  unfold index.
  destruct ((0 <=? i) && (i <? len s)) eqn:E.
  - apply andb_true_iff in E.
    destruct (arr s !! Z.to_nat i) as [b|]; split.
    + intros [= ->]. split; [lia|done].
    + intros [_ [= ->]]. done.
    + discriminate.
    + intros [_ [=]].
  - apply andb_false_iff in E. split; [discriminate|]. lia.
Qed.

Lemma index_view s i a :
  index s i = Ok a -> view s !! Z.to_nat i = Some a.
Proof.
  rewrite index_Ok. intros [Hi Ha]. unfold view.
  rewrite lookup_take_lt by lia. done.
Qed.

Lemma index_total s i :
  slice_ok s = true -> 0 <= i < len s -> exists a, index s i = Ok a.
Proof.
  rewrite slice_ok_spec. unfold cap. intros Hs Hi.
  destruct (lookup_lt_is_Some_2 (arr s) (Z.to_nat i)) as [a Ha]; [lia|].
  exists a. by apply index_Ok.
Qed.

Lemma store_Ok s i v :
  slice_ok s = true -> 0 <= i < len s ->
  store s i v = Ok (Slice (<[Z.to_nat i := v]> (arr s)) (len s)).
Proof.
  intros Hs Hi. destruct (index_total s i Hs Hi) as [a Ha].
  apply index_Ok in Ha as [_ Ha]. unfold store. rewrite Ha.
  replace ((0 <=? i) && (i <? len s)) with true; [done|].
  symmetry. apply andb_true_iff. lia.
Qed.

Lemma index_insert_eq s i v :
  slice_ok s = true -> 0 <= i < len s ->
  index (Slice (<[Z.to_nat i := v]> (arr s)) (len s)) i = Ok v.
Proof.
  rewrite slice_ok_spec. unfold cap. intros Hs Hi.
  apply index_Ok. simpl. split; [done|].
  apply list_lookup_insert_eq. lia.
Qed.

Lemma index_insert_ne s i j v :
  0 <= i -> 0 <= j -> i <> j ->
  index (Slice (<[Z.to_nat i := v]> (arr s)) (len s)) j = index s j.
Proof.
  intros Hi Hj Hij. unfold index. simpl.
  rewrite list_lookup_insert_ne by lia. done.
Qed.

Lemma slice_ok_insert s i v :
  slice_ok (Slice (<[i := v]> (arr s)) (len s)) = slice_ok s.
Proof. unfold slice_ok, cap. simpl. by rewrite length_insert. Qed.
End SliceFacts.

Section GridFacts.
Context {A : Type}.
Implicit Types (g : slice (slice A)).

Lemma rect_ok_Rect g sx sy : rect_ok g sx sy = true -> Rect g sx sy.
Proof.
  unfold rect_ok. rewrite !andb_true_iff, Z.eqb_eq.
  intros [[Hg Hl] Hall] x Hx.
  destruct (index_total g x Hg) as [r Hr]; [lia|].
  exists r. split; [done|].
  rewrite forallb_forall in Hall.
  specialize (Hall r). rewrite andb_true_iff, Z.eqb_eq in Hall.
  apply Hall, list_elem_of_In, (list_elem_of_lookup_2 _ (Z.to_nat x)).
  by apply index_view.
Qed.

Lemma covers_Covers g sx sy : covers g sx sy = true -> Covers g sx sy.
Proof.
  unfold covers. rewrite !andb_true_iff, Z.leb_le.
  intros [[Hg Hl] Hall] x Hx.
  destruct (index_total g x Hg) as [r Hr]; [lia|].
  exists r. split; [done|].
  rewrite forallb_forall in Hall.
  specialize (Hall r). rewrite andb_true_iff, Z.leb_le in Hall.
  apply Hall, list_elem_of_In, (list_elem_of_lookup_2 _ (Z.to_nat x)).
  by apply index_view.
Qed.

Lemma Rect_Covers g sx sy : Rect g sx sy -> Covers g sx sy.
Proof.
  intros H x Hx. destruct (H x Hx) as (r & ? & ? & ?).
  exists r. repeat split; [done|done|lia].
Qed.

Lemma Covers_index2 g sx sy x y :
  Covers g sx sy -> 0 <= x < sx -> 0 <= y < sy ->
  exists a, index2 g x y = Ok a.
Proof.
  intros H Hx Hy. destruct (H x Hx) as (r & Hr & Hok & Hl).
  unfold index2. rewrite Hr. simpl. apply index_total; [done|lia].
Qed.

(** Writing one element keeps the shape and changes that element only. *)
Lemma Covers_store2 g sx sy x y v :
  Covers g sx sy -> 0 <= x < sx -> 0 <= y < sy ->
  exists g', store2 g x y v = Ok g'
    /\ Covers g' sx sy
    /\ index2 g' x y = Ok v
    /\ (forall x' y', 0 <= x' -> 0 <= y' -> x' <> x \/ y' <> y ->
          index2 g' x' y' = index2 g x' y').
Proof.
  intros H Hx Hy. destruct (H x Hx) as (r & Hr & Hok & Hl).
  pose proof Hr as Hr'. apply index_Ok in Hr' as [Hxl Hlk].
  set (r' := Slice (<[Z.to_nat y := v]> (arr r)) (len r)).
  set (g' := Slice (<[Z.to_nat x := r']> (arr g)) (len g)).
  assert (Hlen : (Z.to_nat x < length (arr g))%nat)
    by (by eapply lookup_lt_Some).
  assert (Hix : index g' x = Ok r').
  { apply index_Ok. simpl. split; [done|].
    by apply list_lookup_insert_eq. }
  exists g'. split; [|split; [|split]].
  - unfold store2. rewrite Hr. simpl.
    rewrite store_Ok by (done || lia). simpl. fold r'.
    unfold store. rewrite Hlk.
    replace ((0 <=? x) && (x <? len g)) with true; [done|].
    symmetry. apply andb_true_iff. lia.
  - intros x' Hx'. destruct (decide (x' = x)) as [->|Hne].
    + exists r'. split; [done|]. unfold r'.
      rewrite slice_ok_insert. simpl. done.
    + destruct (H x' Hx') as (q & Hq & ? & ?). exists q.
      split; [|done]. unfold g'.
      rewrite index_insert_ne by lia. done.
  - unfold index2. rewrite Hix. simpl.
    apply index_insert_eq; [done|lia].
  - intros x' y' Hx' Hy' Hne. unfold index2.
    destruct (decide (x' = x)) as [->|Hnx].
    + rewrite Hix, Hr. simpl. unfold r'.
      apply index_insert_ne; lia.
    + unfold g'. rewrite index_insert_ne by lia. done.
Qed.
End GridFacts.

(** ** The normal estimator *)

(** Bounds of a clamped or shifted index. *)
Ltac in_range :=
  repeat match goal with
         | |- context [?a <? ?b] => destruct (Z.ltb_spec a b)
         end; lia.

Lemma pt_index2 (s : surface) (sx sy x y : Z) :
  Rect (pts s) sx sy -> 0 <= x < sx -> 0 <= y < sy ->
  index2 (pts s) x y = Ok (pt s x y).
Proof.
  intros H Hx Hy.
  destruct (Covers_index2 _ sx sy x y (Rect_Covers _ _ _ H) Hx Hy) as [a Ha].
  unfold pt. by rewrite Ha.
Qed.

(** Inside the grid the estimator reads four in-range samples. *)
Lemma normal_at_Ok (s : surface) (sx sy x y : Z) :
  Rect (pts s) sx sy -> 0 <= x < sx -> 0 <= y < sy ->
  normal_at s sx sy x y = Ok (nrm s sx sy x y).
Proof.
  intros H Hx Hy.
  assert (E : exists n, normal_at s sx sy x y = Ok n).
  { unfold normal_at. cbv zeta.
    repeat (rewrite (pt_index2 s sx sy) by (done || in_range);
            cbn [mbind result_bind]).
    eauto. }
  destruct E as [n Hn]. unfold nrm. by rewrite Hn.
Qed.

(** The first loop of [Update] stores the normal of every grid point and
    keeps the shape of the scratch. *)
Lemma normals_Ok (s : surface) (sx sy : Z) :
  0 <= sx -> 0 <= sy ->
  Rect (pts s) sx sy -> Covers (nms s) sx sy ->
  exists norms, normals s sx sy = Ok norms
    /\ Covers norms sx sy
    /\ forall x y, 0 <= x < sx -> 0 <= y < sy ->
         index2 norms x y = Ok (nrm s sx sy x y).
Proof.
  intros Hsx Hsy HR HC. unfold normals.
  set (I := fun (i : Z) (n : slice (slice xyz)) =>
    Covers n sx sy /\
    forall x y, 0 <= x < i -> 0 <= y < sy ->
      index2 n x y = Ok (nrm s sx sy x y)).
  destruct (for_loop_inv
    (fun norms x => foldM (fun norms y =>
        n ← normal_at s sx sy x y; store2 norms x y n) norms (seqZ 0 sy))
    I sx (nms s)) as (t & Ht & HI & Hall); [done| |  |eauto].
  { split; [done|]. intros; lia. }
  intros i t Hi [HCt Ht].
  set (J := fun (j : Z) (n : slice (slice xyz)) =>
    Covers n sx sy /\
    forall x y, 0 <= x -> 0 <= y < sy -> (x < i \/ x = i /\ y < j) ->
      index2 n x y = Ok (nrm s sx sy x y)).
  destruct (for_loop_inv
    (fun norms y => n ← normal_at s sx sy i y; store2 norms i y n)
    J sy t) as (t' & Ht' & HJ & Hall'); [done| | |].
  { split; [done|]. intros x y Hx Hy [?|[? ?]]; [|lia]. apply Ht; lia. }
  { intros j u Hj [HCu Hu].
    rewrite (normal_at_Ok s sx sy i j) by done. simpl.
    destruct (Covers_store2 u sx sy i j (nrm s sx sy i j) HCu Hi Hj)
      as (u' & Hst & HCu' & Hnew & Hold).
    exists u'. split; [done|]. split; [done|].
    intros x y Hx Hy Hd.
    destruct (decide (x = i /\ y = j)) as [[-> ->]|Hne]; [done|].
    rewrite Hold by lia. apply Hu; lia. }
  exists t'. split; [done|]. split; [done|].
  intros x y Hx Hy. apply Hall'; lia.
Qed.

(** ** The mesh assembler *)

Lemma foldl_bind {A B C : Type} (f : C -> B -> C) (h : A -> list B)
    (l : list A) (c : C) :
  foldl f c (l ≫= h) = foldl (fun c a => foldl f c (h a)) c l.
Proof.
  revert c. induction l as [|a l IH]; intros c; [done|].
  rewrite bind_cons, foldl_app. simpl. apply IH.
Qed.

Lemma wrap16_idemp (a b : Z) : wrap16 (wrap16 a + b) = wrap16 (a + b).
Proof. unfold wrap16. by rewrite Zplus_mod_idemp_l. Qed.

(** The buffers after the quads [cs], from buffers with counter [v0]. *)
Lemma foldl_emit (s : surface) (sx sy xoff yoff : Z) (b : bufs) (v0 : Z)
    (cs : list (Z * Z)) :
  b_vc b = wrap16 v0 ->
  foldl (emit s sx sy xoff yoff) b cs =
  mkBufs
    (b_vb b ++ (c ← cs;
       quad_vb (scale s) c.1 c.2 (pt s c.1 c.2) (pt s (c.1 + 1) c.2)
               (pt s c.1 (c.2 + 1)) (pt s (c.1 + 1) (c.2 + 1))))
    (b_nb b ++ (c ← cs;
       quad_nb (nrm s sx sy c.1 c.2) (nrm s sx sy (c.1 + 1) c.2)
               (nrm s sx sy c.1 (c.2 + 1)) (nrm s sx sy (c.1 + 1) (c.2 + 1))))
    (b_tb b ++ (c ← cs; quad_tb (tile s xoff yoff c) (pt s c.1 c.2)))
    (b_fb b ++ (k ← seq 0 (length cs); quad_fb (wrap16 (v0 + 4 * Z.of_nat k))))
    (wrap16 (v0 + 4 * Z.of_nat (length cs))).
Proof.
  intros Hv. induction cs as [|c cs IH] using rev_ind.
  - simpl. rewrite !app_nil_r, Z.add_0_r, <- Hv. by destruct b.
  - rewrite foldl_app. simpl. rewrite IH. unfold emit at 1. simpl.
    rewrite length_app, seq_app, !bind_app. simpl.
    rewrite <- !app_assoc, wrap16_idemp.
    f_equal; [done..|]. f_equal. lia.
Qed.

(** One pass of the loop body, inside the grid. *)
Lemma quad_Ok (s : surface) (norms : slice (slice xyz))
    (sx sy xoff yoff x y : Z) (b : bufs) :
  Rect (pts s) sx sy ->
  (forall x y, 0 <= x < sx -> 0 <= y < sy ->
     index2 norms x y = Ok (nrm s sx sy x y)) ->
  spread s <> 0 ->
  0 <= x < sx - 1 -> 0 <= y < sy - 1 ->
  quad s norms xoff yoff x b y = Ok (emit s sx sy xoff yoff b (x, y)).
Proof.
  intros HR HN Hsp Hx Hy. unfold quad. cbv zeta.
  repeat (rewrite (pt_index2 s sx sy) by (done || lia);
          cbn [mbind result_bind]).
  unfold uvpack. destruct (Z.eqb_spec (spread s) 0) as [|_]; [done|].
  cbn [mbind result_bind].
  rewrite !HN by lia. done.
Qed.

Lemma cells_nil (sx sy : Z) : sx <= 1 \/ sy <= 1 -> cells sx sy = [].
Proof.
  unfold cells. intros [H|H].
  - by rewrite (seqZ_nil 0 (sx - 1)) by lia.
  - rewrite (seqZ_nil 0 (sy - 1)) by lia.
    induction (seqZ 0 (sx - 1)) as [|a l IH]; [done|].
    by rewrite bind_cons, IH.
Qed.

(** The second loop of [Update] is a left fold of [emit] over the quads. *)
Lemma quads_Ok (s : surface) (norms : slice (slice xyz))
    (sx sy xoff yoff : Z) (b : bufs) :
  Rect (pts s) sx sy ->
  (forall x y, 0 <= x < sx -> 0 <= y < sy ->
     index2 norms x y = Ok (nrm s sx sy x y)) ->
  spread s <> 0 \/ sx <= 1 \/ sy <= 1 ->
  quads s norms sx sy xoff yoff b =
  Ok (foldl (emit s sx sy xoff yoff) b (cells sx sy)).
Proof.
  intros HR HN Hsp. unfold quads, cells.
  rewrite foldl_bind.
  apply foldM_pure. intros x t Hx. apply elem_of_seqZ in Hx.
  rewrite foldl_bind.
  apply foldM_pure. intros y u Hy. apply elem_of_seqZ in Hy.
  simpl. apply (quad_Ok s norms sx sy); [done|done| |lia|lia].
  destruct Hsp as [?|[?|?]]; [done|lia|lia].
Qed.

(** A rebuild of a well-shaped surface completes; its buffers are [mesh]
    and the scratch holds the normal of every grid point. *)
Lemma rebuild_Ok (s : surface) (xoff yoff sx sy : Z) :
  1 <= sx ->
  rect_ok (pts s) sx sy = true -> covers (nms s) sx sy = true ->
  spread s <> 0 \/ sx <= 1 \/ sy <= 1 ->
  exists norms,
    rebuild s xoff yoff = Ok (norms, mesh s sx sy xoff yoff)
    /\ Covers norms sx sy
    /\ forall x y, 0 <= x < sx -> 0 <= y < sy ->
         index2 norms x y = Ok (nrm s sx sy x y).
Proof.
  intros Hsx Hr Hc Hsp.
  assert (Hlen : len (pts s) = sx).
  { unfold rect_ok in Hr. rewrite !andb_true_iff, Z.eqb_eq in Hr. tauto. }
  apply rect_ok_Rect in Hr. apply covers_Covers in Hc.
  destruct (Hr 0) as (row0 & Hrow0 & Hok & Hsy); [lia|].
  assert (0 <= sy) by (apply slice_ok_spec in Hok; lia).
  destruct (normals_Ok s sx sy) as (norms & Hn & HC & HN); [lia|done..|].
  exists norms. split; [|done].
  unfold rebuild. rewrite Hrow0. cbn [mbind result_bind].
  rewrite Hlen, Hsy, Hn. cbn [mbind result_bind].
  rewrite (quads_Ok s norms sx sy) by done. cbn [mbind result_bind].
  rewrite (foldl_emit s sx sy xoff yoff _ 0) by done.
  simpl. done.
Qed.

Lemma Update_rebuild (s : surface) (m : Model) (xoff yoff : Z)
    (norms : slice (slice xyz)) (b : bufs) :
  rebuild s xoff yoff = Ok (norms, b) ->
  Update s m xoff yoff = Ok (set_nms s norms, deliver m b).
Proof. intros H. unfold Update. by rewrite H. Qed.

(** ** Construction *)

(** The allocation loops of [newSurface]: every row header is replaced
    by the freshly made row. *)
Lemma fill_rows {A : Type} (mk : result (slice A)) (row : slice A) (n : Z) :
  mk = Ok row -> 0 <= n ->
  foldM (fun p x => r ← mk; store p x r)
        (Slice (replicate (Z.to_nat n) nil_slice) n) (seqZ 0 n)
  = Ok (Slice (replicate (Z.to_nat n) row) n).
Proof.
  intros Hmk Hn.
  set (I := fun (i : Z) (p : slice (slice A)) =>
    p = Slice (replicate (Z.to_nat i) row
               ++ replicate (Z.to_nat (n - i)) nil_slice) n).
  destruct (for_loop_inv (fun p x => r ← mk; store p x r) I n
              (Slice (replicate (Z.to_nat n) nil_slice) n))
    as (t & Ht & Hi); [done| | |].
  - unfold I. simpl. by rewrite Z.sub_0_r.
  - intros i t Hi ->. rewrite Hmk. cbn [mbind result_bind].
    rewrite store_Ok; [|apply slice_ok_spec; unfold cap; simpl|simpl; lia].
    2:{ rewrite length_app, !length_replicate. lia. }
    eexists. split; [done|]. unfold I. simpl. f_equal.
    rewrite insert_app_r_alt by (rewrite length_replicate; lia).
    rewrite length_replicate, Nat.sub_diag.
    replace (Z.to_nat (n - i)) with (S (Z.to_nat (n - (i + 1)))) by lia.
    replace (Z.to_nat (i + 1)) with (S (Z.to_nat i)) by lia.
    simpl. rewrite app_comm_cons, replicate_cons_app, <- app_assoc. done.
  - rewrite Ht, Hi. simpl. rewrite Z.sub_diag. simpl.
    by rewrite app_nil_r.
Qed.

Lemma fill_rows_panic {A : Type} (mk : result (slice A)) (e : panic)
    (p : slice (slice A)) (n : Z) :
  mk = Panic e -> 1 <= n ->
  foldM (fun p x => r ← mk; store p x r) p (seqZ 0 n) = Panic e.
Proof. intros Hmk Hn. rewrite seqZ_cons by lia. simpl. by rewrite Hmk. Qed.

Lemma newSurface_fresh (sx sy spread : Z) (textureRatio scale : float32) :
  0 <= sx -> sx = 0 \/ 0 <= sy ->
  newSurface sx sy spread textureRatio scale
  = Ok (fresh sx sy spread textureRatio scale).
Proof.
  intros Hsx Hsy. unfold newSurface, make.
  destruct (Z.ltb_spec sx 0) as [|_]; [lia|]. cbn [mbind result_bind len].
  destruct (decide (sx = 0)) as [->|Hpos]; [done|].
  destruct (Z.ltb_spec sy 0) as [|_]; [lia|].
  rewrite (fill_rows _ (Slice (replicate (Z.to_nat sy) zeroPoint) sy)) by done.
  cbn [mbind result_bind len].
  destruct (Z.ltb_spec sx 0) as [|_]; [lia|]. cbn [mbind result_bind len].
  assert (Hrow : index (Slice (replicate (Z.to_nat sx)
                   (Slice (replicate (Z.to_nat sy) zeroPoint) sy)) sx) 0
                 = Ok (Slice (replicate (Z.to_nat sy) zeroPoint) sy)).
  { apply index_Ok. simpl. split; [lia|]. apply lookup_replicate_2. lia. }
  rewrite Hrow. cbn [mbind result_bind len].
  rewrite (fill_rows _ (Slice (replicate (Z.to_nat sy) zeroXyz) sy));
    [done| |done].
  by destruct (Z.ltb_spec sy 0) as [|_]; [lia|].
Qed.

Lemma newSurface_panic (sx sy spread : Z) (textureRatio scale : float32) :
  sx < 0 \/ (1 <= sx /\ sy < 0) ->
  newSurface sx sy spread textureRatio scale = Panic MakeLenOutOfRange.
Proof.
  intros H. unfold newSurface, make.
  destruct (Z.ltb_spec sx 0) as [|Hsx]; [done|].
  cbn [mbind result_bind len].
  rewrite (fill_rows_panic _ MakeLenOutOfRange); [done| |lia].
  destruct (Z.ltb_spec sy 0); [done|lia].
Qed.

(** A fresh surface is well shaped. *)
Lemma fresh_shape (sx sy spread : Z) (textureRatio scale : float32) :
  0 <= sx -> 0 <= sy ->
  rect_ok (pts (fresh sx sy spread textureRatio scale)) sx sy = true
  /\ covers (nms (fresh sx sy spread textureRatio scale)) sx sy = true.
Proof.
  intros Hsx Hsy. unfold rect_ok, covers, slice_ok, cap, view. simpl.
  rewrite !length_replicate, !take_replicate, !andb_true_iff, !forallb_forall.
  repeat split; try (apply Z.leb_le || apply Z.eqb_eq); try lia.
  - intros r Hr%list_elem_of_In%elem_of_replicate. destruct Hr as [-> _].
    simpl. rewrite length_replicate, !andb_true_iff.
    repeat split; try (apply Z.leb_le || apply Z.eqb_eq); lia.
  - intros r Hr%list_elem_of_In%elem_of_replicate. destruct Hr as [-> _].
    simpl. rewrite length_replicate, !andb_true_iff.
    repeat split; try (apply Z.leb_le || apply Z.eqb_eq); lia.
Qed.

(** ** The hand-over to the sink *)

(** Whatever the sink held, it holds the four buffers of the rebuild
    afterwards, typed 3, 3 and 4 wide and tagged for dynamic use. *)
Lemma deliver_sink (m : Model) (b : bufs) :
  meshes (deliver m b) !! 0 = Some (mkRegion 3 DynamicDraw false (b_vb b))
  /\ meshes (deliver m b) !! 1 = Some (mkRegion 3 DynamicDraw false (b_nb b))
  /\ meshes (deliver m b) !! 2 = Some (mkRegion 4 DynamicDraw false (b_tb b))
  /\ faces (deliver m b) = Some (DynamicDraw, b_fb b).
Proof.
  unfold deliver, SetFaces, InitFaces, SetMeshData, InitMesh. simpl.
  repeat split; by simplify_map_eq.
Qed.

(** ** Sizes *)

Lemma length_bind_const {A B : Type} (f : A -> list B) (n : nat) (l : list A) :
  (forall a, length (f a) = n) -> length (l ≫= f) = (length l * n)%nat.
Proof.
  intros H. induction l as [|a l IH]; [done|].
  rewrite bind_cons, length_app, H, IH. simpl. lia.
Qed.

Lemma length_cells (sx sy : Z) :
  length (cells sx sy) = (Z.to_nat (sx - 1) * Z.to_nat (sy - 1))%nat.
Proof.
  unfold cells.
  rewrite (length_bind_const _ (Z.to_nat (sy - 1))), length_seqZ; [done|].
  intros x. rewrite (length_bind_const _ 1%nat), length_seqZ; [lia|done].
Qed.

(** The vertex counter is a multiple of four below 65536: the five
    additions of line 197 never wrap inside a quad. *)
Lemma quad_fb_wrap (k : Z) :
  quad_fb (wrap16 (4 * k)) =
  let vc := (4 * k) mod 65536 in [vc; vc + 1; vc + 2; vc + 1; vc + 3; vc + 2].
Proof.
  unfold quad_fb, wrap16. cbv zeta.
  assert (H : (4 * k) mod 65536 = 4 * (k mod 16384)).
  { change 65536 with (4 * 16384). by rewrite Z.mul_mod_distr_l. }
  pose proof (Z.mod_pos_bound k 16384 eq_refl).
  rewrite H.
  rewrite (Z.mod_small (_ + 1)), (Z.mod_small (_ + 2)), (Z.mod_small (_ + 3))
    by lia.
  done.
Qed.

Lemma wrap16_small (k : Z) : 0 <= k < 16384 -> wrap16 (4 * k) = 4 * k.
Proof. intros. unfold wrap16. apply Z.mod_small. lia. Qed.

Lemma mesh_fb_S (n : nat) :
  mesh_fb (S n) = mesh_fb n ++ quad_fb (wrap16 (4 * Z.of_nat n)).
Proof.
  unfold mesh_fb. rewrite seq_S, bind_app. done.
Qed.

Lemma length_mesh_fb (n : nat) : length (mesh_fb n) = (6 * n)%nat.
Proof.
  unfold mesh_fb. rewrite (length_bind_const _ 6%nat), length_seq; [lia|done].
Qed.

(** The six indices of quad [k] in the face buffer of [n] quads. *)
Lemma mesh_fb_quad (n k : nat) :
  (k < n)%nat ->
  take 6 (drop (6 * k) (mesh_fb n)) = quad_fb (wrap16 (4 * Z.of_nat k)).
Proof.
  induction n as [|n IH]; intros Hk; [lia|].
  rewrite mesh_fb_S.
  destruct (decide (k = n)) as [->|Hne].
  - rewrite drop_app_length' by (rewrite length_mesh_fb; lia). done.
  - rewrite drop_app_le by (rewrite length_mesh_fb; lia).
    rewrite take_app_le by (rewrite length_drop, length_mesh_fb; lia).
    apply IH. lia.
Qed.

(** ** What one [Update] call does *)

(** [Update] on a well-shaped surface: it completes, stores the normals in
    the scratch and hands [mesh] to the sink.  Without quads the tile
    period is never used. *)
Lemma Update_Ok (s : surface) (m : Model) (xoff yoff sx sy : Z) :
  1 <= sx ->
  rect_ok (pts s) sx sy = true -> covers (nms s) sx sy = true ->
  spread s <> 0 \/ sx <= 1 \/ sy <= 1 ->
  exists norms,
    Update s m xoff yoff
    = Ok (set_nms s norms, deliver m (mesh s sx sy xoff yoff))
    /\ forall x y, 0 <= x < sx -> 0 <= y < sy ->
         index2 norms x y = Ok (nrm s sx sy x y).
Proof.
  intros Hsx Hr Hc Hsp.
  destruct (rebuild_Ok s xoff yoff sx sy Hsx Hr Hc Hsp) as (norms & H & _ & HN).
  exists norms. split; [by apply Update_rebuild|done].
Qed.

Lemma quads_count (sx sy : Z) :
  1 <= sx -> 1 <= sy ->
  length (cells sx sy) = Z.to_nat ((sx - 1) * (sy - 1)).
Proof. intros. rewrite length_cells. nia. Qed.

(** C2: for every grid with sx >= 2 and sy >= 2 (and a tile period that is
    not zero), one [Update] call delivers (sx-1)*(sy-1)*4 vertices, that is
    a 3 wide position buffer of 12*(sx-1)*(sy-1) floats, with as many
    normals and 4 wide texture attributes, and (sx-1)*(sy-1)*6 indices;
    the six indices of quad [k] are (v, v+1, v+2) and (v+1, v+3, v+2) for
    the 16 bit vertex counter v = 4k mod 65536, which advances by four per
    quad. *)
Theorem Update_counts (s : surface) (m : Model) (xoff yoff sx sy : Z) :
  2 <= sx -> 2 <= sy ->
  rect_ok (pts s) sx sy = true -> covers (nms s) sx sy = true ->
  spread s <> 0 ->
  let q := (sx - 1) * (sy - 1) in
  exists s' m' vbuf nbuf tbuf fbuf,
    Update s m xoff yoff = Ok (s', m')
    /\ meshes m' !! 0 = Some (mkRegion 3 DynamicDraw false vbuf)
    /\ meshes m' !! 1 = Some (mkRegion 3 DynamicDraw false nbuf)
    /\ meshes m' !! 2 = Some (mkRegion 4 DynamicDraw false tbuf)
    /\ faces m' = Some (DynamicDraw, fbuf)
    /\ Z.of_nat (length vbuf) = 3 * (4 * q)
    /\ Z.of_nat (length nbuf) = 3 * (4 * q)
    /\ Z.of_nat (length tbuf) = 4 * (4 * q)
    /\ Z.of_nat (length fbuf) = 6 * q
    /\ fbuf = (k ← seq 0 (Z.to_nat q);
               let v := (4 * Z.of_nat k) mod 65536 in
               [v; v + 1; v + 2; v + 1; v + 3; v + 2]).
Proof.
  intros Hsx Hsy Hr Hc Hsp q.
  destruct (Update_Ok s m xoff yoff sx sy) as (norms & HU & _);
    [lia|done|done|by left|].
  destruct (deliver_sink m (mesh s sx sy xoff yoff)) as (H0 & H1 & H2 & HF).
  assert (Hq : length (cells sx sy) = Z.to_nat q) by (apply quads_count; lia).
  assert (0 <= q) by (unfold q; nia).
  eexists _, _, _, _, _, _. split; [exact HU|].
  split; [exact H0|]. split; [exact H1|]. split; [exact H2|].
  split; [exact HF|]. simpl.
  unfold mesh_vb, mesh_nb, mesh_tb, mesh_fb.
  rewrite (length_bind_const _ 12%nat), (length_bind_const _ 12%nat),
    (length_bind_const _ 16%nat), (length_bind_const _ 6%nat), length_seq, Hq
    by done.
  repeat split; try lia.
  apply Forall_bind_ext, Forall_forall. intros k _. apply quad_fb_wrap.
Qed.

Lemma Update_counts_witness :
  let s := fresh 3 3 1 F32.one F32.one in
  let m := mkModel ∅ None in
  rect_ok (pts s) 3 3 = true /\ covers (nms s) 3 3 = true /\
  exists s' m' vbuf nbuf tbuf fbuf,
    Update s m 0 0 = Ok (s', m')
    /\ meshes m' !! 0 = Some (mkRegion 3 DynamicDraw false vbuf)
    /\ meshes m' !! 1 = Some (mkRegion 3 DynamicDraw false nbuf)
    /\ meshes m' !! 2 = Some (mkRegion 4 DynamicDraw false tbuf)
    /\ faces m' = Some (DynamicDraw, fbuf)
    /\ Z.of_nat (length vbuf) = 3 * (4 * 4)
    /\ Z.of_nat (length nbuf) = 3 * (4 * 4)
    /\ Z.of_nat (length tbuf) = 4 * (4 * 4)
    /\ Z.of_nat (length fbuf) = 6 * 4
    /\ fbuf = (k ← seq 0 4;
               let v := (4 * Z.of_nat k) mod 65536 in
               [v; v + 1; v + 2; v + 1; v + 3; v + 2]).
Proof.
  split; [reflexivity|]. split; [reflexivity|].
  apply (Update_counts (fresh 3 3 1 F32.one F32.one) (mkModel ∅ None) 0 0 3 3);
    [lia|lia|reflexivity|reflexivity|simpl; lia].
Defined.

(** C1, as the code has it: neither construction nor [Update] checks the
    vertex count.  For a well-shaped grid of any size [Update] completes
    and delivers its face buffer; the 16 bit vertex counter wraps modulo
    65536, so quad [k] is indexed from 4k mod 65536; with at most 16384
    quads (65536 vertices) no index wraps and quad [k] is indexed from
    4k. *)
Theorem Update_no_capacity_check (s : surface) (m : Model)
    (xoff yoff sx sy : Z) :
  1 <= sx -> 1 <= sy ->
  rect_ok (pts s) sx sy = true -> covers (nms s) sx sy = true ->
  spread s <> 0 ->
  let q := (sx - 1) * (sy - 1) in
  exists s' m',
    Update s m xoff yoff = Ok (s', m')
    /\ faces m' = Some (DynamicDraw,
                        k ← seq 0 (Z.to_nat q);
                        quad_fb (wrap16 (4 * Z.of_nat k)))
    /\ (q <= 16384 ->
        faces m' = Some (DynamicDraw,
                         k ← seq 0 (Z.to_nat q);
                         let v := 4 * Z.of_nat k in
                         [v; v + 1; v + 2; v + 1; v + 3; v + 2])).
Proof.
  intros Hsx Hsy Hr Hc Hsp q.
  destruct (Update_Ok s m xoff yoff sx sy) as (norms & HU & _);
    [lia|done|done|by left|].
  assert (HF : faces (deliver m (mesh s sx sy xoff yoff))
               = Some (DynamicDraw, mesh_fb (Z.to_nat q))).
  { destruct (deliver_sink m (mesh s sx sy xoff yoff)) as (_ & _ & _ & HF).
    rewrite HF. simpl. by rewrite quads_count by lia. }
  eexists _, _. split; [exact HU|]. split; [exact HF|].
  intros Hq. rewrite HF. do 2 f_equal.
  apply Forall_bind_ext, Forall_forall.
  intros k Hk%elem_of_seq. rewrite quad_fb_wrap. cbv zeta.
  rewrite (Z.mod_small (4 * Z.of_nat k)) by lia. done.
Qed.

Lemma Update_no_capacity_check_witness :
  let s := fresh 3 3 1 F32.one F32.one in
  let m := mkModel ∅ None in
  rect_ok (pts s) 3 3 = true /\ covers (nms s) 3 3 = true /\
  exists s' m',
    Update s m 0 0 = Ok (s', m')
    /\ faces m' = Some (DynamicDraw,
                        k ← seq 0 4; quad_fb (wrap16 (4 * Z.of_nat k)))
    /\ (4 <= 16384 ->
        faces m' = Some (DynamicDraw,
                         k ← seq 0 4;
                         let v := 4 * Z.of_nat k in
                         [v; v + 1; v + 2; v + 1; v + 3; v + 2])).
Proof.
  split; [reflexivity|]. split; [reflexivity|].
  apply (Update_no_capacity_check (fresh 3 3 1 F32.one F32.one)
           (mkModel ∅ None) 0 0 3 3);
    [lia|lia|reflexivity|reflexivity|simpl; lia].
Defined.

(** C1 fails as stated: a 2 by 16386 grid has 16385 quads, 65540
    vertices.  Construction succeeds, [Update] completes and delivers
    6 * 16385 indices, and the last quad is indexed from 0 again, like the
    first: the counter has wrapped without any report. *)
Lemma Update_wraps_silently :
  let s := fresh 2 16386 1 F32.one F32.one in
  newSurface 2 16386 1 F32.one F32.one = Ok s
  /\ exists s' m' fbuf,
       Update s (mkModel ∅ None) 0 0 = Ok (s', m')
       /\ faces m' = Some (DynamicDraw, fbuf)
       /\ Z.of_nat (length fbuf) = 6 * 16385
       /\ take 6 (drop (Z.to_nat (6 * 16384)) fbuf) = [0; 1; 2; 1; 3; 2]
       /\ take 6 fbuf = [0; 1; 2; 1; 3; 2].
Proof.
  intros s. split; [apply newSurface_fresh; lia|].
  destruct (fresh_shape 2 16386 1 F32.one F32.one) as [Hr Hc]; [lia|lia|].
  destruct (Update_Ok s (mkModel ∅ None) 0 0 2 16386) as (norms & HU & _);
    [lia|exact Hr|exact Hc|left; discriminate|].
  assert (HF : faces (deliver (mkModel ∅ None) (mesh s 2 16386 0 0))
               = Some (DynamicDraw, mesh_fb (Z.to_nat 16385))).
  { destruct (deliver_sink (mkModel ∅ None) (mesh s 2 16386 0 0))
      as (_ & _ & _ & HF).
    rewrite HF. cbn [mesh b_fb]. rewrite quads_count by lia. reflexivity. }
  eexists _, _, _. split; [exact HU|]. split; [exact HF|].
  split; [rewrite length_mesh_fb; lia|].
  split.
  - replace (Z.to_nat (6 * 16384)) with (6 * Z.to_nat 16384)%nat by lia.
    rewrite mesh_fb_quad by lia. rewrite Z2Nat.id by lia. reflexivity.
  - change (take 6 (mesh_fb (Z.to_nat 16385)))
      with (take 6 (drop (6 * 0) (mesh_fb (Z.to_nat 16385)))).
    rewrite mesh_fb_quad by lia. reflexivity.
Qed.

(** C9: [Update] never writes the sample grid.  A completed call returns
    the surface it was given with nothing but the normal scratch replaced,
    so [Pts] exposes the same samples before and after; and on every
    well-shaped surface the call does complete. *)
Theorem Update_frame (s : surface) (m : Model) (xoff yoff : Z) :
  (forall s' m',
     Update s m xoff yoff = Ok (s', m') ->
     s' = set_nms s (nms s') /\ Pts s' = Pts s /\ grid s' = grid s)
  /\ (forall sx sy,
        1 <= sx ->
        rect_ok (pts s) sx sy = true -> covers (nms s) sx sy = true ->
        spread s <> 0 \/ sx <= 1 \/ sy <= 1 ->
        exists s' m', Update s m xoff yoff = Ok (s', m')).
Proof.
  split.
  - intros s' m' H. unfold Update in H.
    apply bind_Ok in H as ([norms b] & _ & [= <- _]). done.
  - intros sx sy Hsx Hr Hc Hsp.
    destruct (Update_Ok s m xoff yoff sx sy) as (norms & HU & _); eauto.
Qed.

(** C10: a grid of one row or one column (sx = 1 and sy >= 1, or sy = 1
    and sx >= 1) has no quad.  [Update] completes, whatever the tile
    period; the sink receives four empty buffers in place of what it held
    (3, 3 and 4 wide, and the indices); and the scratch holds the
    normalised vector of the estimator for every grid point. *)
Theorem Update_degenerate (s : surface) (m : Model) (xoff yoff sx sy : Z) :
  (sx = 1 /\ 1 <= sy) \/ (sy = 1 /\ 1 <= sx) ->
  rect_ok (pts s) sx sy = true -> covers (nms s) sx sy = true ->
  exists s' m',
    Update s m xoff yoff = Ok (s', m')
    /\ meshes m' !! 0 = Some (mkRegion 3 DynamicDraw false [])
    /\ meshes m' !! 1 = Some (mkRegion 3 DynamicDraw false [])
    /\ meshes m' !! 2 = Some (mkRegion 4 DynamicDraw false [])
    /\ faces m' = Some (DynamicDraw, [])
    /\ forall x y, 0 <= x < sx -> 0 <= y < sy ->
         exists n, normal_at s sx sy x y = Ok n
                   /\ index2 (nms s') x y = Ok n.
Proof.
  intros Hd Hr Hc.
  destruct (Update_Ok s m xoff yoff sx sy) as (norms & HU & HN);
    [lia|done|done|right; lia|].
  assert (Hm : mesh s sx sy xoff yoff = mkBufs [] [] [] [] 0).
  { unfold mesh, mesh_vb, mesh_nb, mesh_tb. by rewrite cells_nil by lia. }
  rewrite Hm in HU.
  destruct (deliver_sink m (mkBufs [] [] [] [] 0)) as (H0 & H1 & H2 & HF).
  eexists _, _. split; [exact HU|].
  split; [exact H0|]. split; [exact H1|]. split; [exact H2|].
  split; [exact HF|].
  intros x y Hx Hy. exists (nrm s sx sy x y). split.
  - apply normal_at_Ok; [by apply rect_ok_Rect|done|done].
  - simpl. by apply HN.
Qed.

Lemma Update_degenerate_witness :
  let s := fresh 1 3 0 F32.one F32.one in
  let m := mkModel {[ 0 := mkRegion 3 StaticDraw false [F32.one] ]}
                   (Some (StaticDraw, [7])) in
  rect_ok (pts s) 1 3 = true /\ covers (nms s) 1 3 = true /\
  exists s' m',
    Update s m 0 0 = Ok (s', m')
    /\ meshes m' !! 0 = Some (mkRegion 3 DynamicDraw false [])
    /\ meshes m' !! 1 = Some (mkRegion 3 DynamicDraw false [])
    /\ meshes m' !! 2 = Some (mkRegion 4 DynamicDraw false [])
    /\ faces m' = Some (DynamicDraw, [])
    /\ forall x y, 0 <= x < 1 -> 0 <= y < 3 ->
         exists n, normal_at s 1 3 x y = Ok n
                   /\ index2 (nms s') x y = Ok n.
Proof.
  split; [reflexivity|]. split; [reflexivity|].
  apply (Update_degenerate (fresh 1 3 0 F32.one F32.one)
           (mkModel {[ 0 := mkRegion 3 StaticDraw false [F32.one] ]}
                    (Some (StaticDraw, [7]))) 0 0 1 3);
    [left; lia|reflexivity|reflexivity].
Defined.

(** ** Construction and resizing *)

Lemma grid_fresh (sx sy spread : Z) (textureRatio scale : float32) :
  grid (fresh sx sy spread textureRatio scale)
  = replicate (Z.to_nat sx) (replicate (Z.to_nat sy) zeroPoint).
Proof.
  unfold grid, Pts, view. simpl.
  rewrite take_replicate, Nat.min_id, fmap_replicate. simpl.
  by rewrite take_replicate, Nat.min_id.
Qed.

(** C3, as the code has it: [newSurface] validates nothing.  Construction
    fails, with the run-time panic of [make], exactly for a negative sx, or
    a negative sy when sx >= 1; in every other case, whatever the tile
    period and the atlas ratio are, it returns a surface of sx rows of sy
    zero samples that stores the parameters as given. *)
Theorem newSurface_validation (sx sy sp : Z) (ratio sc : float32) :
  (sx < 0 \/ (1 <= sx /\ sy < 0) ->
     newSurface sx sy sp ratio sc = Panic MakeLenOutOfRange)
  /\ (0 <= sx /\ (sx = 0 \/ 0 <= sy) ->
      exists s,
        newSurface sx sy sp ratio sc = Ok s
        /\ spread s = sp /\ tratio s = ratio /\ scale s = sc
        /\ grid s = replicate (Z.to_nat sx) (replicate (Z.to_nat sy) zeroPoint)).
Proof.
  split.
  - apply newSurface_panic.
  - intros [Hsx Hsy]. exists (fresh sx sy sp ratio sc).
    split; [by apply newSurface_fresh|].
    repeat split. apply grid_fresh.
Qed.

(** C3 fails as stated: a tile period of -2 with an atlas ratio of -1 is
    accepted, and the surface is usable, a rebuild on it completes; so is
    an empty grid (sx = 0, sy = 0) with a tile period of 0. *)
Lemma newSurface_accepts_invalid :
  (exists s s' m',
     newSurface 2 2 (-2) (F32.opp F32.one) F32.one = Ok s
     /\ spread s = -2 /\ tratio s = F32.opp F32.one
     /\ Update s (mkModel ∅ None) 0 0 = Ok (s', m'))
  /\ (exists s, newSurface 0 0 0 F32.zero F32.one = Ok s /\ grid s = []).
Proof.
  split.
  - eexists _, _, _. split; [reflexivity|].
    split; [reflexivity|]. split; [reflexivity|].
    vm_compute. reflexivity.
  - eexists. split; reflexivity.
Qed.

Lemma rect_ok_spec {A : Type} (g : slice (slice A)) (sx sy : Z) :
  rect_ok g sx sy = true <->
  0 <= len g <= cap g /\ len g = sx
  /\ Forall (fun r => 0 <= len r <= cap r /\ len r = sy) (view g).
Proof.
  unfold rect_ok.
  rewrite !andb_true_iff, slice_ok_spec, Z.eqb_eq, forallb_forall, Forall_forall.
  split.
  - intros [[Hg Hl] H]. split; [done|]. split; [done|].
    intros r Hr. specialize (H r).
    rewrite andb_true_iff, slice_ok_spec, Z.eqb_eq in H.
    apply H. by apply list_elem_of_In.
  - intros (Hg & Hl & H). split; [done|].
    intros r Hr. rewrite andb_true_iff, slice_ok_spec, Z.eqb_eq.
    apply H. by apply list_elem_of_In.
Qed.

Lemma reslice_Ok {A : Type} (s : slice A) (n : Z) :
  0 <= n <= cap s -> reslice s n = Ok (Slice (arr s) n).
Proof.
  intros H. unfold reslice.
  by replace ((0 <=? n) && (n <=? cap s)) with true
    by (symmetry; apply andb_true_iff; lia).
Qed.

Lemma reslice_panic {A : Type} (s : slice A) (n : Z) :
  n < 0 \/ cap s < n -> reslice s n = Panic SliceBoundsOutOfRange.
Proof.
  intros H. unfold reslice.
  by replace ((0 <=? n) && (n <=? cap s)) with false
    by (symmetry; apply andb_false_iff; lia).
Qed.

(** The row loop of [Resize]: the first [w] row headers get length [h]. *)
Lemma Resize_rows {A : Type} (rows : list (slice A)) (w h : Z) :
  0 <= w <= Z.of_nat (length rows) ->
  Forall (fun r => 0 <= h <= cap r) (take (Z.to_nat w) rows) ->
  foldM (fun p sx => row ← index p sx; row' ← reslice row h; store p sx row')
        (Slice rows w) (seqZ 0 w)
  = Ok (Slice (((fun r => Slice (arr r) h) <$> take (Z.to_nat w) rows)
               ++ drop (Z.to_nat w) rows) w).
Proof.
  intros Hw Hall.
  set (f := fun r : slice A => Slice (arr r) h).
  set (I := fun (i : Z) (p : slice (slice A)) =>
    p = Slice ((f <$> take (Z.to_nat i) rows) ++ drop (Z.to_nat i) rows) w).
  destruct (for_loop_inv
    (fun p sx => row ← index p sx; row' ← reslice row h; store p sx row')
    I w (Slice rows w)) as (t & Ht & Hi); [lia|done| |by rewrite Ht, Hi].
  intros i t Hi ->.
  destruct (lookup_lt_is_Some_2 rows (Z.to_nat i)) as [r Hr]; [lia|].
  assert (Hcap : 0 <= h <= cap r).
  { rewrite Forall_forall in Hall. apply Hall.
    apply (list_elem_of_lookup_2 _ (Z.to_nat i)).
    rewrite lookup_take_lt by lia. done. }
  assert (Hlen : length (f <$> take (Z.to_nat i) rows) = Z.to_nat i).
  { rewrite length_fmap, length_take. lia. }
  assert (Hix : index (Slice ((f <$> take (Z.to_nat i) rows)
                              ++ drop (Z.to_nat i) rows) w) i = Ok r).
  { apply index_Ok. simpl. split; [lia|].
    rewrite lookup_app_r by lia. rewrite Hlen, Nat.sub_diag.
    rewrite lookup_drop, Nat.add_0_r. done. }
  rewrite Hix. cbn [mbind result_bind].
  rewrite reslice_Ok by done. cbn [mbind result_bind]. fold (f r).
  rewrite store_Ok; [|apply slice_ok_spec; unfold cap; simpl|simpl; lia].
  2:{ rewrite length_app, Hlen, length_drop. lia. }
  eexists. split; [done|]. unfold I. simpl. f_equal.
  rewrite insert_app_r_alt by lia. rewrite Hlen, Nat.sub_diag.
  rewrite (drop_S _ _ _ Hr). simpl.
  replace (Z.to_nat (i + 1)) with (S (Z.to_nat i)) by lia.
  rewrite (take_S_r _ _ _ Hr), fmap_app, <- app_assoc. done.
Qed.

(** Shrinking a well-shaped grid succeeds and keeps the retained samples. *)
Lemma Resize_shrink (s : surface) (sx sy w h : Z) :
  rect_ok (pts s) sx sy = true ->
  0 <= w <= sx -> 0 <= h <= sy ->
  exists s',
    Resize s w h = (s', Ok tt)
    /\ s' = set_pts s (pts s')
    /\ rect_ok (pts s') w h = true
    /\ grid s' = take (Z.to_nat w) (take (Z.to_nat h) <$> grid s).
Proof.
  intros (Hok & Hlen & Hall)%rect_ok_spec Hw Hh.
  destruct (pts s) as [rows n] eqn:Hp. unfold cap, view in *. simpl in *.
  subst n.
  assert (Hrows : Forall (fun r => 0 <= len r <= cap r /\ len r = sy)
                         (take (Z.to_nat w) rows)).
  { replace (Z.to_nat w) with (Z.to_nat w `min` Z.to_nat sx)%nat by lia.
    rewrite <- take_take. by apply Forall_take. }
  eexists. split.
  - unfold Resize. rewrite Hp.
    rewrite reslice_Ok by (unfold cap; simpl; lia). cbn [arr len].
    rewrite Resize_rows; [done|lia|].
    eapply Forall_impl; [exact Hrows|]. simpl. intros r [? ?]. lia.
  - simpl. split; [done|].
    assert (Hl : length ((fun r : slice SurfacePoint => Slice (arr r) h)
                           <$> take (Z.to_nat w) rows) = Z.to_nat w).
    { rewrite length_fmap, length_take. lia. }
    split.
    + apply rect_ok_spec. unfold cap, view. simpl.
      rewrite length_app, Hl, length_drop.
      split; [lia|]. split; [done|].
      rewrite take_app_length' by done.
      apply Forall_fmap. eapply Forall_impl; [exact Hrows|].
      simpl. unfold cap. simpl. intros r [? ?]. lia.
    + unfold grid, Pts, view. simpl. rewrite Hp. simpl.
      rewrite take_app_length' by done.
      rewrite <- !list_fmap_compose, <- fmap_take, take_take.
      replace (Z.to_nat w `min` Z.to_nat sx)%nat with (Z.to_nat w) by lia.
      apply Forall_fmap_ext. eapply Forall_impl; [exact Hrows|].
      simpl. intros r [? ?]. rewrite take_take. f_equal. lia.
Qed.

Lemma grid_shape (s : surface) (sx sy : Z) :
  rect_ok (pts s) sx sy = true ->
  Z.of_nat (length (grid s)) = sx
  /\ Forall (fun row => Z.of_nat (length row) = sy) (grid s).
Proof.
  intros (Hok & Hlen & Hall)%rect_ok_spec. unfold grid, Pts.
  split.
  - rewrite length_fmap. unfold view, cap in *. rewrite length_take. lia.
  - apply Forall_fmap. eapply Forall_impl; [exact Hall|].
    simpl. intros r [? ?]. unfold view, cap in *. rewrite length_take. lia.
Qed.

(** [Resize] within the capacities, growing or shrinking: the first [w]
    rows become the first [h] elements of their backing arrays. *)
Lemma Resize_within_capacity (s : surface) (w h : Z) :
  0 <= w <= cap (pts s) ->
  Forall (fun r => 0 <= h <= cap r) (take (Z.to_nat w) (arr (pts s))) ->
  exists s',
    Resize s w h = (s', Ok tt)
    /\ grid s' = (fun r => take (Z.to_nat h) (arr r))
                 <$> take (Z.to_nat w) (arr (pts s)).
Proof.
  intros Hw Hall. unfold Resize.
  rewrite reslice_Ok by done. cbn [arr len].
  rewrite Resize_rows by (done || unfold cap in Hw; lia).
  eexists. split; [done|].
  unfold grid, Pts, view. simpl.
  rewrite take_app_length'
    by (rewrite length_fmap, length_take; unfold cap in Hw; lia).
  by rewrite <- list_fmap_compose.
Qed.

(** C4, as the code has it: [Resize] returns no error.  A call whose [w]
    is negative or above the capacity of the grid panics and leaves the
    surface as it was; a call within the capacities of the grid and of its
    first [w] rows succeeds, also when it grows a grid that was shrunk
    before.  For every shrink call with 0 <= w <= current width and
    0 <= h <= current height the grid exposed by [Pts] has exactly w rows
    of h entries and keeps the prior samples at all retained indices. *)
Theorem Resize_contract (s : surface) (sx sy w h : Z) :
  (w < 0 \/ cap (pts s) < w ->
     Resize s w h = (s, Panic SliceBoundsOutOfRange))
  /\ (0 <= w <= cap (pts s) ->
      Forall (fun r => 0 <= h <= cap r) (take (Z.to_nat w) (arr (pts s))) ->
      exists s', Resize s w h = (s', Ok tt)
        /\ grid s' = (fun r => take (Z.to_nat h) (arr r))
                     <$> take (Z.to_nat w) (arr (pts s)))
  /\ (rect_ok (pts s) sx sy = true -> 0 <= w <= sx -> 0 <= h <= sy ->
      exists s', Resize s w h = (s', Ok tt)
        /\ s' = set_pts s (Pts s')
        /\ Z.of_nat (length (grid s')) = w
        /\ Forall (fun row => Z.of_nat (length row) = h) (grid s')
        /\ grid s' = take (Z.to_nat w) (take (Z.to_nat h) <$> grid s)).
Proof.
  split; [|split].
  - intros H. unfold Resize. by rewrite reslice_panic.
  - apply Resize_within_capacity.
  - intros Hr Hw Hh.
    destruct (Resize_shrink s sx sy w h Hr Hw Hh) as (s' & HR & Hs & Hr' & Hg).
    destruct (grid_shape s' w h Hr') as [Hl Hrows].
    exists s'. done.
Qed.

(** C4 fails as stated.  On a 3 by 3 surface shrunk to 2 by 2, the growing
    call Resize(3,3) is accepted and brings the 3 by 3 grid back; and the
    growing call Resize(2,5) on the 3 by 3 surface panics after the width
    has been cut to 2, so the grid is not left unchanged. *)
Lemma Resize_growth_not_rejected :
  exists s0 s1 s2 s3,
    newSurface 3 3 1 F32.one F32.one = Ok s0
    /\ Resize s0 2 2 = (s1, Ok tt)
    /\ grid s1 = replicate 2 (replicate 2 zeroPoint)
    /\ Resize s1 3 3 = (s2, Ok tt)
    /\ grid s2 = replicate 3 (replicate 3 zeroPoint)
    /\ Resize s0 2 5 = (s3, Panic SliceBoundsOutOfRange)
    /\ grid s0 = replicate 3 (replicate 3 zeroPoint)
    /\ grid s3 = replicate 2 (replicate 3 zeroPoint).
Proof.
  eexists _, _, _, _.
  split; [reflexivity|]. split; [reflexivity|]. split; [reflexivity|].
  split; [reflexivity|]. split; [reflexivity|]. split; [reflexivity|].
  split; reflexivity.
Qed.

(** ** The flat 3 by 3 scenario *)

Lemma flat3_fresh :
  newSurface 3 3 1 F32.one F32.one
  = Ok (flat3 (fun _ _ => 0) (fun _ _ => F32.zero)).
Proof. reflexivity. Qed.

(** With a tile period of 1 every quad gets the whole texture, pulled in
    by the border on its four sides. *)
Lemma tile_flat3 (ti : Z -> Z -> Z) (bl : Z -> Z -> float32) (c : Z * Z) :
  tile (flat3 ti bl) 0 0 c
  = mkUvs F32.border F32.c0_999 F32.c0_999 F32.c0_999
          F32.border F32.border F32.c0_999 F32.border.
Proof.
  unfold tile. cbn [flat3 spread tratio]. rewrite !Z.rem_1_r.
  vm_compute. reflexivity.
Qed.

Lemma border_is_0_001 :
  F32.border = F32.div F32.one (F32.of_int 1000)
  /\ F32.c0_999 = F32.sub F32.one F32.border
  /\ F32.c0_999 = F32.div (F32.of_int 999) (F32.of_int 1000).
Proof. repeat split; vm_compute; reflexivity. Qed.

(** C7: for sx = sy = 3, spread = 1, atlasRatio = 1.0, heightScale = 1,
    all heights 0 and offset (0,0), [Update] delivers 4 quads: 16 vertices
    (48 position floats), 24 indices, 16 normals that all equal (0,1,0)
    (the x component is the IEEE negative zero, which [==] does not tell
    from 0), and per quad the four corners (0.001,0.999), (0.999,0.999),
    (0.001,0.001), (0.999,0.001), each followed by the texture index and
    the blend of the sample at the origin corner of the quad. *)
Theorem Update_flat3 (ti : Z -> Z -> Z) (bl : Z -> Z -> float32) (m : Model) :
  let quads4 := [(0, 0); (0, 1); (1, 0); (1, 1)] in
  exists s' m' vbuf nbuf tbuf fbuf,
    Update (flat3 ti bl) m 0 0 = Ok (s', m')
    /\ meshes m' !! 0 = Some (mkRegion 3 DynamicDraw false vbuf)
    /\ meshes m' !! 1 = Some (mkRegion 3 DynamicDraw false nbuf)
    /\ meshes m' !! 2 = Some (mkRegion 4 DynamicDraw false tbuf)
    /\ faces m' = Some (DynamicDraw, fbuf)
    /\ length vbuf = (3 * 16)%nat /\ length nbuf = (3 * 16)%nat
    /\ length tbuf = (4 * 16)%nat /\ length fbuf = 24%nat
    /\ vbuf = (c ← quads4;
               [F32.of_int c.1; F32.of_int c.2; F32.zero;
                F32.of_int (c.1 + 1); F32.of_int c.2; F32.zero;
                F32.of_int c.1; F32.of_int (c.2 + 1); F32.zero;
                F32.of_int (c.1 + 1); F32.of_int (c.2 + 1); F32.zero])
    /\ fbuf = [0; 1; 2; 1; 3; 2; 4; 5; 6; 5; 7; 6;
               8; 9; 10; 9; 11; 10; 12; 13; 14; 13; 15; 14]
    /\ nbuf = mjoin (replicate 16 [F32.opp F32.zero; F32.one; F32.zero])
    /\ Forall2 feq nbuf (mjoin (replicate 16 [F32.zero; F32.one; F32.zero]))
    /\ tbuf = (c ← quads4;
               let tindex := F32.of_int (ti c.1 c.2) in
               let blend := bl c.1 c.2 in
               [F32.border; F32.c0_999; tindex; blend;
                F32.c0_999; F32.c0_999; tindex; blend;
                F32.border; F32.border; tindex; blend;
                F32.c0_999; F32.border; tindex; blend]).
Proof.
  intros quads4.
  destruct (Update_Ok (flat3 ti bl) m 0 0 3 3) as (norms & HU & _);
    [lia|reflexivity|reflexivity|left; discriminate|].
  destruct (deliver_sink m (mesh (flat3 ti bl) 3 3 0 0))
    as (H0 & H1 & H2 & HF).
  assert (Hv : mesh_vb (flat3 ti bl) 3 3
               = (c ← quads4;
               [F32.of_int c.1; F32.of_int c.2; F32.zero;
                F32.of_int (c.1 + 1); F32.of_int c.2; F32.zero;
                F32.of_int c.1; F32.of_int (c.2 + 1); F32.zero;
                F32.of_int (c.1 + 1); F32.of_int (c.2 + 1); F32.zero]))
    by (vm_compute; reflexivity).
  assert (Hn : mesh_nb (flat3 ti bl) 3 3
               = mjoin (replicate 16 [F32.opp F32.zero; F32.one; F32.zero]))
    by (vm_compute; reflexivity).
  assert (Hf : mesh_fb (length (cells 3 3))
               = [0; 1; 2; 1; 3; 2; 4; 5; 6; 5; 7; 6;
                  8; 9; 10; 9; 11; 10; 12; 13; 14; 13; 15; 14])
    by (vm_compute; reflexivity).
  assert (Ht : mesh_tb (flat3 ti bl) 3 3 0 0
               = (c ← quads4;
                  let tindex := F32.of_int (ti c.1 c.2) in
                  let blend := bl c.1 c.2 in
                  [F32.border; F32.c0_999; tindex; blend;
                   F32.c0_999; F32.c0_999; tindex; blend;
                   F32.border; F32.border; tindex; blend;
                   F32.c0_999; F32.border; tindex; blend])).
  { unfold mesh_tb. change (cells 3 3) with quads4.
    apply Forall_bind_ext, Forall_forall. intros c Hc.
    rewrite tile_flat3. unfold quad_tb. cbn [uv0 uv1 uv2 uv3 uv4 uv5 uv6 uv7].
    unfold quads4 in Hc.
    repeat (apply elem_of_cons in Hc as [->|Hc]; [reflexivity|]).
    apply elem_of_nil in Hc. destruct Hc. }
  cbn [mesh b_vb b_nb b_tb b_fb] in H0, H1, H2, HF.
  rewrite Hv in H0. rewrite Hn in H1. rewrite Ht in H2. rewrite Hf in HF.
  eexists _, _, _, _, _, _. split; [exact HU|].
  split; [exact H0|]. split; [exact H1|]. split; [exact H2|].
  split; [exact HF|].
  repeat (split; [reflexivity|]).
  split; [|reflexivity].
  repeat constructor.
Qed.

(** ** Boundary slopes *)

Lemma sub_diag (a : float32) : finite a = true -> F32.sub a a = F32.zero.
Proof.
  destruct a as [[]|[]| |s m e]; try done.
  intros _. unfold F32.sub, SFsub. cbv zeta. by rewrite Z.sub_diag.
Qed.

(** The normal at a grid point, from the samples the estimator reads. *)
Lemma nrm_slopes (s : surface) (sx sy x y : Z) :
  Rect (pts s) sx sy -> 0 <= x < sx -> 0 <= y < sy ->
  nrm s sx sy x y =
  let dx := F32.sub (Height (pt s (if x <? sx - 1 then x + 1 else x) y))
                    (Height (pt s (if 0 <? x then x - 1 else x) y)) in
  let dy := F32.sub (Height (pt s x (if y <? sy - 1 then y + 1 else y)))
                    (Height (pt s x (if 0 <? y then y - 1 else y))) in
  unit_normal (scale s)
    (if (x =? 0) || (x =? sx - 1) then F32.mul dx F32.two else dx)
    (if (y =? 0) || (y =? sy - 1) then F32.mul dy F32.two else dy).
Proof.
  intros H Hx Hy. unfold nrm, normal_at. cbv zeta.
  repeat (rewrite (pt_index2 s sx sy) by (done || in_range);
          cbn [mbind result_bind]).
  done.
Qed.

(** C6: take a height field that varies along x only (finite heights
    [h x]), a boundary column [xb] (0 or sx-1) and an interior column [xi]
    with the same local slope: the difference to the one neighbour the
    boundary has, doubled, is the difference between the two neighbours of
    [xi].  Then the normal the estimator stores at a boundary point is the
    normal it stores at an interior point. *)
Theorem boundary_normal_matches_interior (s : surface) (sx sy : Z)
    (h : Z -> float32) (xb xi yb yi : Z) :
  rect_ok (pts s) sx sy = true -> covers (nms s) sx sy = true ->
  (forall x y, 0 <= x < sx -> 0 <= y < sy -> Height (pt s x y) = h x) ->
  (forall x, 0 <= x < sx -> finite (h x) = true) ->
  xb = 0 \/ xb = sx - 1 -> 0 < xi < sx - 1 ->
  0 <= yb < sy -> 0 <= yi < sy ->
  F32.mul (F32.sub (h (Z.min (xb + 1) (sx - 1))) (h (Z.max (xb - 1) 0)))
          F32.two
  = F32.sub (h (xi + 1)) (h (xi - 1)) ->
  exists norms n,
    normals s sx sy = Ok norms
    /\ index2 norms xb yb = Ok n /\ index2 norms xi yi = Ok n
    /\ n = unit_normal (scale s) (F32.sub (h (xi + 1)) (h (xi - 1))) F32.zero.
Proof.
  intros Hr Hc Hh Hfin Hb Hi Hyb Hyi Hslope.
  apply rect_ok_Rect in Hr. apply covers_Covers in Hc.
  destruct (normals_Ok s sx sy) as (norms & Hn & _ & HN); [lia|lia|done..|].
  assert (Hy0 : forall x y, 0 <= x < sx -> 0 <= y < sy ->
            (let dy := F32.sub
                         (Height (pt s x (if y <? sy - 1 then y + 1 else y)))
                         (Height (pt s x (if 0 <? y then y - 1 else y))) in
             if (y =? 0) || (y =? sy - 1) then F32.mul dy F32.two else dy)
            = F32.zero).
  { intros x y Hx Hy. cbv zeta.
    rewrite !Hh by (done || in_range). rewrite sub_diag by auto.
    by destruct ((y =? 0) || (y =? sy - 1)). }
  exists norms, (nrm s sx sy xi yi).
  split; [done|]. rewrite !HN by lia.
  rewrite (nrm_slopes s sx sy xb yb), (nrm_slopes s sx sy xi yi) by (done || lia).
  cbv zeta in Hy0 |- *. rewrite !Hy0 by lia. rewrite !Hh by (done || in_range).
  replace ((xi =? 0) || (xi =? sx - 1)) with false
    by (symmetry; apply orb_false_iff; lia).
  replace ((xb =? 0) || (xb =? sx - 1)) with true
    by (symmetry; apply orb_true_iff; lia).
  replace (if xi <? sx - 1 then xi + 1 else xi) with (xi + 1) by in_range.
  replace (if 0 <? xi then xi - 1 else xi) with (xi - 1) by in_range.
  replace (if xb <? sx - 1 then xb + 1 else xb) with (Z.min (xb + 1) (sx - 1))
    by in_range.
  replace (if 0 <? xb then xb - 1 else xb) with (Z.max (xb - 1) 0) by in_range.
  rewrite Hslope. done.
Qed.

Lemma boundary_normal_matches_interior_witness :
  exists norms n,
    normals ramp4 4 2 = Ok norms
    /\ index2 norms 0 0 = Ok n /\ index2 norms 1 1 = Ok n
    /\ n = unit_normal (scale ramp4)
             (F32.sub (F32.of_int (1 + 1)) (F32.of_int (1 - 1))) F32.zero.
Proof.
  apply (boundary_normal_matches_interior ramp4 4 2 F32.of_int 0 1 0 1);
    try reflexivity; try lia.
  - intros x y Hx Hy.
    assert (Hxs : x = 0 \/ x = 1 \/ x = 2 \/ x = 3) by lia.
    assert (Hys : y = 0 \/ y = 1) by lia.
    destruct Hxs as [->|[->|[->| ->]]], Hys as [->| ->]; reflexivity.
  - intros x Hx.
    assert (Hxs : x = 0 \/ x = 1 \/ x = 2 \/ x = 3) by lia.
    destruct Hxs as [->|[->|[->| ->]]]; reflexivity.
Defined.

(** ** Texture coordinates *)

Lemma elem_of_cells (sx sy : Z) (c : Z * Z) :
  c ∈ cells sx sy -> 0 <= c.1 < sx - 1 /\ 0 <= c.2 < sy - 1.
Proof.
  unfold cells. intros (x & Hc & Hx%elem_of_seqZ)%list_elem_of_bind.
  apply list_elem_of_bind in Hc as (y & Hc & Hy%elem_of_seqZ).
  apply list_elem_of_singleton in Hc as ->. simpl. lia.
Qed.

Lemma wrap_int_small (z : Z) :
  - 2 ^ 63 <= z < 2 ^ 63 -> wrap_int z = z.
Proof.
  intros H. unfold wrap_int, int_bits.
  change (2 ^ (64 - 1)) with (2 ^ 63). change (2 ^ 64) with (2 * 2 ^ 63).
  rewrite Z.mod_small by lia. lia.
Qed.

(** Line 165 for a coordinate that is not negative and does not
    overflow: the remainder is the residue modulo the period. *)
Lemma rem_offset (z sp : Z) :
  0 <= z < 2 ^ 63 -> 0 < sp ->
  Z.rem (wrap_int z) sp = z mod sp.
Proof.
  intros Hz Hsp. rewrite wrap_int_small by lia.
  apply Z.rem_mod_nonneg; lia.
Qed.

(** C8, as the code has it: for every well-shaped grid, every spread >= 1
    and all non-negative offsets for which x+xo+spread and y+yo+spread
    stay below 2^63 (no overflow of [int]) for the quads of the grid,
    [Update] with offset (xo, yo), with (xo + spread, yo) and with
    (xo, yo + spread) deliver the same texture buffer. *)
Theorem Update_tile_continuity (s : surface) (m : Model) (xo yo sx sy : Z) :
  1 <= sx ->
  rect_ok (pts s) sx sy = true -> covers (nms s) sx sy = true ->
  1 <= spread s -> 0 <= xo -> 0 <= yo ->
  sx + xo + spread s <= 2 ^ 63 -> sy + yo + spread s <= 2 ^ 63 ->
  exists s1 m1 s2 m2 s3 m3 tbuf,
    Update s m xo yo = Ok (s1, m1)
    /\ Update s m (xo + spread s) yo = Ok (s2, m2)
    /\ Update s m xo (yo + spread s) = Ok (s3, m3)
    /\ meshes m1 !! 2 = Some (mkRegion 4 DynamicDraw false tbuf)
    /\ meshes m2 !! 2 = Some (mkRegion 4 DynamicDraw false tbuf)
    /\ meshes m3 !! 2 = Some (mkRegion 4 DynamicDraw false tbuf).
Proof.
  intros Hsx Hr Hc Hsp Hxo Hyo Hxmax Hymax.
  destruct (Update_Ok s m xo yo sx sy) as (n1 & HU1 & _);
    [done|done|done|left; lia|].
  destruct (Update_Ok s m (xo + spread s) yo sx sy) as (n2 & HU2 & _);
    [done|done|done|left; lia|].
  destruct (Update_Ok s m xo (yo + spread s) sx sy) as (n3 & HU3 & _);
    [done|done|done|left; lia|].
  destruct (deliver_sink m (mesh s sx sy xo yo)) as (_ & _ & H1 & _).
  destruct (deliver_sink m (mesh s sx sy (xo + spread s) yo))
    as (_ & _ & H2 & _).
  destruct (deliver_sink m (mesh s sx sy xo (yo + spread s)))
    as (_ & _ & H3 & _).
  cbn [mesh b_tb] in H1, H2, H3.
  assert (E2 : mesh_tb s sx sy (xo + spread s) yo = mesh_tb s sx sy xo yo).
  { unfold mesh_tb. apply Forall_bind_ext, Forall_forall.
    intros c [Hx Hy]%elem_of_cells. unfold tile.
    rewrite !rem_offset by lia.
    replace (c.1 + (xo + spread s)) with (c.1 + xo + 1 * spread s) by lia.
    by rewrite Z_mod_plus_full. }
  assert (E3 : mesh_tb s sx sy xo (yo + spread s) = mesh_tb s sx sy xo yo).
  { unfold mesh_tb. apply Forall_bind_ext, Forall_forall.
    intros c [Hx Hy]%elem_of_cells. unfold tile.
    rewrite !rem_offset by lia.
    replace (c.2 + (yo + spread s)) with (c.2 + yo + 1 * spread s) by lia.
    by rewrite Z_mod_plus_full. }
  rewrite E2 in H2. rewrite E3 in H3.
  eexists _, _, _, _, _, _, _.
  split; [exact HU1|]. split; [exact HU2|]. split; [exact HU3|].
  split; [exact H1|]. split; [exact H2|exact H3].
Qed.

Lemma Update_tile_continuity_witness :
  exists s1 m1 s2 m2 s3 m3 tbuf,
    Update (fresh 3 3 2 F32.one F32.one) (mkModel ∅ None) 0 0 = Ok (s1, m1)
    /\ Update (fresh 3 3 2 F32.one F32.one) (mkModel ∅ None) (0 + 2) 0
       = Ok (s2, m2)
    /\ Update (fresh 3 3 2 F32.one F32.one) (mkModel ∅ None) 0 (0 + 2)
       = Ok (s3, m3)
    /\ meshes m1 !! 2 = Some (mkRegion 4 DynamicDraw false tbuf)
    /\ meshes m2 !! 2 = Some (mkRegion 4 DynamicDraw false tbuf)
    /\ meshes m3 !! 2 = Some (mkRegion 4 DynamicDraw false tbuf).
Proof.
  apply (Update_tile_continuity (fresh 3 3 2 F32.one F32.one)
           (mkModel ∅ None) 0 0 3 3);
    try reflexivity; simpl; lia.
Defined.

(** C8 fails as stated at the end of the [int] range: on a 3 by 2 grid
    with spread 3 and offset xo = 2^63 - 4, the sum 1 + (xo + 3) wraps to
    -2^63, whose remainder by 3 is -2, while 1 + xo has remainder 2; the
    two texture buffers differ. *)
Lemma Update_tile_continuity_overflow :
  let s := fresh 3 2 3 F32.one F32.one in
  let xo := 2 ^ 63 - 4 in
  exists s1 m1 s2 m2 t1 t2,
    0 <= xo /\ xo + spread s < 2 ^ 63
    /\ Update s (mkModel ∅ None) xo 0 = Ok (s1, m1)
    /\ Update s (mkModel ∅ None) (xo + spread s) 0 = Ok (s2, m2)
    /\ meshes m1 !! 2 = Some (mkRegion 4 DynamicDraw false t1)
    /\ meshes m2 !! 2 = Some (mkRegion 4 DynamicDraw false t2)
    /\ t1 <> t2.
Proof.
  intros s xo.
  destruct (fresh_shape 3 2 3 F32.one F32.one) as [Hr Hc]; [lia|lia|].
  destruct (Update_Ok s (mkModel ∅ None) xo 0 3 2) as (n1 & HU1 & _);
    [lia|exact Hr|exact Hc|left; discriminate|].
  destruct (Update_Ok s (mkModel ∅ None) (xo + spread s) 0 3 2)
    as (n2 & HU2 & _); [lia|exact Hr|exact Hc|left; discriminate|].
  destruct (deliver_sink (mkModel ∅ None) (mesh s 3 2 xo 0))
    as (_ & _ & H1 & _).
  destruct (deliver_sink (mkModel ∅ None) (mesh s 3 2 (xo + spread s) 0))
    as (_ & _ & H2 & _).
  eexists _, _, _, _, _, _.
  split; [by vm_compute|]. split; [by vm_compute|].
  split; [exact HU1|]. split; [exact HU2|].
  split; [exact H1|]. split; [exact H2|].
  vm_compute. discriminate.
Qed.










(** * Further properties of the code *)

(** ** Shapes, pointwise *)

(** [rebuild] needs the shape only: rows of equal visible length and a
    scratch that covers them. *)
Lemma rebuild_shape (s : surface) (xoff yoff sx sy : Z) :
  1 <= sx -> len (pts s) = sx ->
  Rect (pts s) sx sy -> Covers (nms s) sx sy ->
  spread s <> 0 \/ sx <= 1 \/ sy <= 1 ->
  exists norms,
    rebuild s xoff yoff = Ok (norms, mesh s sx sy xoff yoff)
    /\ Covers norms sx sy
    /\ forall x y, 0 <= x < sx -> 0 <= y < sy ->
         index2 norms x y = Ok (nrm s sx sy x y).
Proof.
  intros Hsx Hlen Hr Hc Hsp.
  destruct (Hr 0) as (row0 & Hrow0 & Hok & Hsy); [lia|].
  assert (0 <= sy) by (apply slice_ok_spec in Hok; lia).
  destruct (normals_Ok s sx sy) as (norms & Hn & HC & HN); [lia|done..|].
  exists norms. split; [|done].
  unfold rebuild. rewrite Hrow0. cbn [mbind result_bind].
  rewrite Hlen, Hsy, Hn. cbn [mbind result_bind].
  rewrite (quads_Ok s norms sx sy) by done. cbn [mbind result_bind].
  rewrite (foldl_emit s sx sy xoff yoff _ 0) by done.
  simpl. done.
Qed.

Lemma rect_ok_len {A : Type} (g : slice (slice A)) (sx sy : Z) :
  rect_ok g sx sy = true -> len g = sx.
Proof. intros H%rect_ok_spec. tauto. Qed.

(** ** A second rebuild changes nothing *)

Lemma store_same {A : Type} (s : slice A) (i : Z) (v : A) :
  index s i = Ok v -> store s i v = Ok s.
Proof.
  intros [Hi Hv]%index_Ok. unfold store. rewrite Hv.
  replace ((0 <=? i) && (i <? len s)) with true
    by (symmetry; apply andb_true_iff; lia).
  rewrite list_insert_id by done. by destruct s.
Qed.

Lemma store2_same {A : Type} (g : slice (slice A)) (x y : Z) (v : A) :
  index2 g x y = Ok v -> store2 g x y v = Ok g.
Proof.
  unfold index2, store2. intros (r & Hr & Hv)%bind_Ok.
  rewrite Hr. cbn [mbind result_bind].
  rewrite (store_same r y v Hv). cbn [mbind result_bind].
  by rewrite (store_same g x r Hr).
Qed.

Lemma foldM_fixed {St A : Type} (f : St -> A -> result St) (s : St)
    (l : list A) :
  (forall a, a ∈ l -> f s a = Ok s) -> foldM f s l = Ok s.
Proof.
  induction l as [|a l IH]; intros H; simpl; [done|].
  rewrite H by left. simpl. apply IH. intros b Hb. apply H. by right.
Qed.

(** A scratch that already holds the normals of the grid is what the
    first loop computes again. *)
Lemma normals_fixed (s : surface) (norms : slice (slice xyz)) (sx sy : Z) :
  Rect (pts s) sx sy ->
  (forall x y, 0 <= x < sx -> 0 <= y < sy ->
     index2 norms x y = Ok (nrm s sx sy x y)) ->
  normals (set_nms s norms) sx sy = Ok norms.
Proof.
  intros HR HN. unfold normals. cbn [nms set_nms].
  apply foldM_fixed. intros x Hx%elem_of_seqZ.
  apply foldM_fixed. intros y Hy%elem_of_seqZ.
  change (normal_at (set_nms s norms) sx sy x y)
    with (normal_at s sx sy x y).
  rewrite (normal_at_Ok s sx sy) by (done || lia). cbn [mbind result_bind].
  apply store2_same, HN; lia.
Qed.

Lemma deliver_idem (m : Model) (b : bufs) :
  deliver (deliver m b) b = deliver m b.
Proof.
  unfold deliver, SetFaces, InitFaces, SetMeshData, InitMesh. simpl.
  f_equal. apply map_eq. intros k.
  destruct (decide (k = 2)) as [->|]; [by simplify_map_eq|].
  destruct (decide (k = 1)) as [->|]; [by simplify_map_eq|].
  destruct (decide (k = 0)) as [->|]; by simplify_map_eq.
Qed.

(** X1: every rebuild is a full recomputation that leaves nothing behind
    for the next one: calling [Update] again with the same offsets, on the
    surface and the sink the first call returned, returns the very same
    surface and sink. *)
Theorem Update_idempotent (s : surface) (m : Model) (xoff yoff sx sy : Z) :
  1 <= sx ->
  rect_ok (pts s) sx sy = true -> covers (nms s) sx sy = true ->
  spread s <> 0 \/ sx <= 1 \/ sy <= 1 ->
  exists s1 m1,
    Update s m xoff yoff = Ok (s1, m1)
    /\ Update s1 m1 xoff yoff = Ok (s1, m1).
Proof.
  intros Hsx Hr Hc Hsp.
  pose proof (rect_ok_len _ _ _ Hr) as Hlen.
  apply rect_ok_Rect in Hr. apply covers_Covers in Hc.
  destruct (rebuild_shape s xoff yoff sx sy) as (norms & HR & HC & HN);
    [done..|].
  exists (set_nms s norms), (deliver m (mesh s sx sy xoff yoff)).
  split; [by apply Update_rebuild|].
  assert (HR' : rebuild (set_nms s norms) xoff yoff
                = Ok (norms, mesh s sx sy xoff yoff)).
  { destruct (Hr 0) as (row0 & Hrow0 & Hok & Hsy); [lia|].
    unfold rebuild. cbn [pts set_nms]. rewrite Hrow0.
    cbn [mbind result_bind]. rewrite Hlen, Hsy.
    rewrite (normals_fixed s norms sx sy) by done.
    cbn [mbind result_bind].
    change (quads (set_nms s norms) norms sx sy xoff yoff)
      with (quads s norms sx sy xoff yoff).
    rewrite (quads_Ok s norms sx sy) by done. cbn [mbind result_bind].
    rewrite (foldl_emit s sx sy xoff yoff _ 0) by done.
    simpl. done. }
  rewrite (Update_rebuild _ _ _ _ _ _ HR'), deliver_idem. done.
Qed.

Lemma Update_idempotent_witness :
  exists s1 m1,
    Update (fresh 3 2 2 F32.one F32.two) (mkModel ∅ None) 1 4 = Ok (s1, m1)
    /\ Update s1 m1 1 4 = Ok (s1, m1).
Proof.
  apply (Update_idempotent (fresh 3 2 2 F32.one F32.two) (mkModel ∅ None)
           1 4 3 2); [lia|reflexivity|reflexivity|left; discriminate].
Defined.

(** ** Panics of [Update] *)

(** X2: a grid without rows makes [Update] panic at [s.pts[0]].  Both
    ways to get one are accepted without complaint: [newSurface] with
    sx = 0, whatever the other parameters, and [Resize(0, h)] on any
    surface, whatever [h]. *)
Theorem Update_empty_grid_panics (m : Model) (xoff yoff : Z) :
  (forall sy sp ratio sc,
     exists s, newSurface 0 sy sp ratio sc = Ok s
               /\ grid s = []
               /\ Update s m xoff yoff = Panic IndexOutOfRange)
  /\ (forall s h,
        exists s', Resize s 0 h = (s', Ok tt)
                   /\ grid s' = []
                   /\ Update s' m xoff yoff = Panic IndexOutOfRange).
Proof.
  split.
  - intros sy sp ratio sc. exists (fresh 0 sy sp ratio sc).
    split; [apply newSurface_fresh; lia|]. split; reflexivity.
  - intros s h. unfold Resize.
    rewrite reslice_Ok by (unfold cap; lia). cbn [arr len].
    rewrite seqZ_nil by lia. cbn [foldM].
    eexists. split; [reflexivity|]. split; reflexivity.
Qed.

Lemma quad_zero_spread (s : surface) (norms : slice (slice xyz))
    (sx sy xoff yoff x y : Z) (b : bufs) :
  Rect (pts s) sx sy -> spread s = 0 ->
  0 <= x < sx - 1 -> 0 <= y < sy - 1 ->
  quad s norms xoff yoff x b y = Panic IntegerDivideByZero.
Proof.
  intros HR Hsp Hx Hy. unfold quad. cbv zeta.
  repeat (rewrite (pt_index2 s sx sy) by (done || lia);
          cbn [mbind result_bind]).
  unfold uvpack. rewrite Hsp. reflexivity.
Qed.

(** X3: a tile period of zero makes [Update] panic with an integer
    division by zero as soon as the grid has a quad (sx >= 2 and
    sy >= 2); [newSurface] accepts such a period. *)
Theorem Update_zero_spread_panics (s : surface) (m : Model)
    (xoff yoff sx sy : Z) :
  2 <= sx -> 2 <= sy ->
  rect_ok (pts s) sx sy = true -> covers (nms s) sx sy = true ->
  spread s = 0 ->
  Update s m xoff yoff = Panic IntegerDivideByZero.
Proof.
  intros Hsx Hsy Hr Hc Hsp.
  pose proof (rect_ok_len _ _ _ Hr) as Hlen.
  apply rect_ok_Rect in Hr. apply covers_Covers in Hc.
  destruct (Hr 0) as (row0 & Hrow0 & Hok & Hrow); [lia|].
  destruct (normals_Ok s sx sy) as (norms & Hn & _ & _); [lia|lia|done..|].
  unfold Update, rebuild. rewrite Hrow0. cbn [mbind result_bind].
  rewrite Hlen, Hrow, Hn. cbn [mbind result_bind].
  unfold quads. rewrite (seqZ_cons 0 (sx - 1)), (seqZ_cons 0 (sy - 1)) by lia.
  cbn [foldM]. rewrite (quad_zero_spread s norms sx sy) by (done || lia).
  reflexivity.
Qed.

Lemma Update_zero_spread_panics_witness :
  (exists s, newSurface 2 2 0 F32.one F32.one = Ok s)
  /\ Update (fresh 2 2 0 F32.one F32.one) (mkModel ∅ None) 0 0
     = Panic IntegerDivideByZero.
Proof.
  split; [eexists; reflexivity|].
  apply (Update_zero_spread_panics (fresh 2 2 0 F32.one F32.one)
           (mkModel ∅ None) 0 0 2 2);
    [lia|lia|reflexivity|reflexivity|reflexivity].
Defined.

(** ** The scratch outside the grid *)

(** The first loop writes inside the grid only. *)
Lemma normals_frame (s : surface) (sx sy : Z) :
  0 <= sx -> 0 <= sy ->
  Rect (pts s) sx sy -> Covers (nms s) sx sy ->
  exists norms, normals s sx sy = Ok norms
    /\ forall x y, 0 <= x -> 0 <= y -> sx <= x \/ sy <= y ->
         index2 norms x y = index2 (nms s) x y.
Proof.
  intros Hsx Hsy HR HC. unfold normals.
  set (I := fun (i : Z) (n : slice (slice xyz)) =>
    Covers n sx sy /\
    forall x y, 0 <= x -> 0 <= y -> sx <= x \/ sy <= y ->
      index2 n x y = index2 (nms s) x y).
  destruct (for_loop_inv
    (fun norms x => foldM (fun norms y =>
        n ← normal_at s sx sy x y; store2 norms x y n) norms (seqZ 0 sy))
    I sx (nms s)) as (t & Ht & HI & Hall); [done|by split| |eauto].
  intros i t Hi [HCt Ht].
  destruct (for_loop_inv
    (fun norms y => n ← normal_at s sx sy i y; store2 norms i y n)
    I sy t) as (t' & Ht' & HJ); [done|by split| |eauto].
  intros j u Hj [HCu Hu].
  rewrite (normal_at_Ok s sx sy i j) by done. cbn [mbind result_bind].
  destruct (Covers_store2 u sx sy i j (nrm s sx sy i j) HCu Hi Hj)
    as (u' & Hst & HCu' & _ & Hold).
  exists u'. split; [done|]. split; [done|].
  intros x y Hx Hy Hout. rewrite Hold by lia. by apply Hu.
Qed.

(** X4: [Update] overwrites the normal scratch inside the current grid
    only.  After a shrink the scratch, which keeps the size of the
    construction, retains the entries beyond the grid untouched. *)
Theorem Update_scratch_frame (s : surface) (m : Model) (xoff yoff sx sy : Z) :
  1 <= sx ->
  rect_ok (pts s) sx sy = true -> covers (nms s) sx sy = true ->
  spread s <> 0 \/ sx <= 1 \/ sy <= 1 ->
  exists s' m',
    Update s m xoff yoff = Ok (s', m')
    /\ forall x y, 0 <= x -> 0 <= y -> sx <= x \/ sy <= y ->
         index2 (nms s') x y = index2 (nms s) x y.
Proof.
  intros Hsx Hr Hc Hsp.
  pose proof (rect_ok_len _ _ _ Hr) as Hlen.
  apply rect_ok_Rect in Hr. apply covers_Covers in Hc.
  destruct (rebuild_shape s xoff yoff sx sy) as (norms & HR & _ & _);
    [done..|].
  destruct (Hr 0) as (row0 & Hrow0 & Hok & Hrow); [lia|].
  assert (0 <= sy) by (apply slice_ok_spec in Hok; lia).
  destruct (normals_frame s sx sy) as (norms' & Hn & Hframe);
    [lia|done..|].
  assert (norms' = norms) as ->.
  { unfold rebuild in HR. rewrite Hrow0 in HR. cbn [mbind result_bind] in HR.
    rewrite Hlen, Hrow, Hn in HR. cbn [mbind result_bind] in HR.
    apply bind_Ok in HR as (b & _ & [= -> _]). done. }
  eexists _, _. split; [by apply Update_rebuild|]. exact Hframe.
Qed.

Lemma Update_scratch_frame_witness :
  exists s0 s1 s' m',
    newSurface 3 3 1 F32.one F32.one = Ok s0
    /\ Resize s0 2 2 = (s1, Ok tt)
    /\ Update s1 (mkModel ∅ None) 0 0 = Ok (s', m')
    /\ forall x y, 0 <= x -> 0 <= y -> 2 <= x \/ 2 <= y ->
         index2 (nms s') x y = index2 (nms s1) x y.
Proof.
  eexists _, _. 
  refine (match Update_scratch_frame
                  (Resize (fresh 3 3 1 F32.one F32.one) 2 2).1
                  (mkModel ∅ None) 0 0 2 2 _ _ _ _ with
          | ex_intro _ s' (ex_intro _ m' (conj HU HF)) =>
              ex_intro _ s' (ex_intro _ m' (conj _ (conj _ (conj HU HF))))
          end);
    [lia|reflexivity|reflexivity|left; discriminate
    |reflexivity|reflexivity].
Defined.

(** ** Resizing, then rebuilding *)

Lemma covers_mono {A : Type} (g : slice (slice A)) (sx sy w h : Z) :
  covers g sx sy = true -> w <= sx -> h <= sy -> covers g w h = true.
Proof.
  unfold covers. rewrite !andb_true_iff, !Z.leb_le, !forallb_forall.
  intros [[Hg Hl] H] Hw Hh. split; [split; [done|lia]|].
  intros r Hr. specialize (H r Hr).
  rewrite andb_true_iff, Z.leb_le in H |- *. split; [tauto|lia].
Qed.

(** Reading through the visible rows. *)
Lemma index_lookup {A : Type} (s : slice A) (i : Z) :
  0 <= i ->
  index s i = match view s !! Z.to_nat i with
              | Some a => Ok a
              | None => Panic IndexOutOfRange
              end.
Proof.
  intros Hi. unfold index, view.
  destruct (Z.ltb_spec i (len s)) as [Hlt|Hge].
  - replace (0 <=? i) with true by (symmetry; apply Z.leb_le; lia).
    simpl. rewrite lookup_take_lt by lia. done.
  - rewrite andb_false_r. rewrite lookup_take_ge by lia. done.
Qed.

Lemma pt_grid (s : surface) (x y : Z) :
  0 <= x -> 0 <= y ->
  pt s x y = default zeroPoint
               (grid s !! Z.to_nat x ≫= fun row => row !! Z.to_nat y).
Proof.
  intros Hx Hy. unfold pt, index2, grid, Pts.
  rewrite index_lookup, list_lookup_fmap by done.
  destruct (view (pts s) !! Z.to_nat x) as [r|]; simpl; [|done].
  rewrite index_lookup by done.
  by destruct (view r !! Z.to_nat y).
Qed.

(** After a shrink the retained samples read as before. *)
Lemma pt_shrunk (s s' : surface) (w h x y : Z) :
  grid s' = take (Z.to_nat w) (take (Z.to_nat h) <$> grid s) ->
  0 <= x < w -> 0 <= y < h -> pt s' x y = pt s x y.
Proof.
  intros Hg Hx Hy. rewrite !pt_grid by lia. rewrite Hg.
  rewrite lookup_take_lt, list_lookup_fmap by lia.
  destruct (grid s !! Z.to_nat x) as [row|]; simpl; [|done].
  rewrite lookup_take_lt by lia. done.
Qed.

(** X5: shrinking a well-shaped surface to w by h (w >= 1) and rebuilding
    it completes, and the sink receives the mesh of the top left w by h
    part of the grid: positions and texture attributes computed from the
    samples the surface held before the shrink, and six indices for each
    of its quads. *)
Theorem Resize_then_Update (s : surface) (m : Model)
    (xoff yoff sx sy w h : Z) :
  rect_ok (pts s) sx sy = true -> covers (nms s) sx sy = true ->
  1 <= w <= sx -> 0 <= h <= sy -> spread s <> 0 ->
  exists s1 s2 m2,
    Resize s w h = (s1, Ok tt)
    /\ Update s1 m xoff yoff = Ok (s2, m2)
    /\ meshes m2 !! 0 = Some (mkRegion 3 DynamicDraw false (mesh_vb s w h))
    /\ meshes m2 !! 2
       = Some (mkRegion 4 DynamicDraw false (mesh_tb s w h xoff yoff))
    /\ faces m2 = Some (DynamicDraw, mesh_fb (length (cells w h))).
Proof.
  intros Hr Hc Hw Hh Hsp.
  destruct (Resize_shrink s sx sy w h) as (s1 & HR & Hs1 & Hr1 & Hg);
    [done|lia|done|].
  assert (Hc1 : covers (nms s1) w h = true).
  { rewrite Hs1. cbn [nms set_pts]. apply (covers_mono _ sx sy); [done|lia..]. }
  assert (Hsp1 : spread s1 <> 0) by (by rewrite Hs1).
  destruct (Update_Ok s1 m xoff yoff w h) as (norms & HU & _);
    [lia|done|done|by left|].
  destruct (deliver_sink m (mesh s1 w h xoff yoff)) as (H0 & _ & H2 & HF).
  cbn [mesh b_vb b_tb b_fb] in H0, H2, HF.
  assert (Ev : mesh_vb s1 w h = mesh_vb s w h).
  { unfold mesh_vb. apply Forall_bind_ext, Forall_forall.
    intros c [Hx Hy]%elem_of_cells.
    rewrite !(pt_shrunk s s1 w h) by (done || lia).
    by rewrite Hs1. }
  assert (Et : mesh_tb s1 w h xoff yoff = mesh_tb s w h xoff yoff).
  { unfold mesh_tb. apply Forall_bind_ext, Forall_forall.
    intros c [Hx Hy]%elem_of_cells.
    rewrite !(pt_shrunk s s1 w h) by (done || lia).
    by rewrite Hs1. }
  rewrite Ev in H0. rewrite Et in H2.
  exists s1. eexists _, _. split; [done|]. split; [exact HU|].
  split; [exact H0|]. split; [exact H2|exact HF].
Qed.

Lemma Resize_then_Update_witness :
  exists s1 s2 m2,
    Resize ramp4 3 2 = (s1, Ok tt)
    /\ Update s1 (mkModel ∅ None) 0 0 = Ok (s2, m2)
    /\ meshes m2 !! 0
       = Some (mkRegion 3 DynamicDraw false (mesh_vb ramp4 3 2))
    /\ meshes m2 !! 2
       = Some (mkRegion 4 DynamicDraw false (mesh_tb ramp4 3 2 0 0))
    /\ faces m2 = Some (DynamicDraw, mesh_fb (length (cells 3 2))).
Proof.
  apply (Resize_then_Update ramp4 (mkModel ∅ None) 0 0 4 2 3 2);
    [reflexivity|reflexivity|lia|lia|discriminate].
Defined.

(** ** Laws of [Resize] *)

(** The surface a [Resize] within the capacities returns. *)
Lemma Resize_state (s : surface) (w h : Z) :
  0 <= w <= cap (pts s) ->
  Forall (fun r => 0 <= h <= cap r) (take (Z.to_nat w) (arr (pts s))) ->
  Resize s w h
  = (set_pts s
       (Slice (((fun r => Slice (arr r) h) <$> take (Z.to_nat w) (arr (pts s)))
               ++ drop (Z.to_nat w) (arr (pts s))) w), Ok tt).
Proof.
  intros Hw Hall. unfold Resize.
  rewrite reslice_Ok by done. cbn [arr len].
  rewrite Resize_rows by (done || unfold cap in Hw; lia). done.
Qed.

(** X6: shrinking loses nothing.  A shrink to w by h followed by
    [Resize] with the former size sx by sy succeeds and exposes the
    grid as it was before the shrink, sample for sample. *)
Theorem Resize_round_trip (s : surface) (sx sy w h : Z) :
  rect_ok (pts s) sx sy = true -> 0 <= w <= sx -> 0 <= h <= sy ->
  exists s1 s2,
    Resize s w h = (s1, Ok tt)
    /\ Resize s1 sx sy = (s2, Ok tt)
    /\ grid s2 = grid s.
Proof.
  intros (Hok & Hlen & Hall)%rect_ok_spec Hw Hh.
  set (rows := arr (pts s)) in *.
  assert (Hview : view (pts s) = take (Z.to_nat sx) rows)
    by (unfold view; by rewrite Hlen).
  rewrite Hview in Hall. unfold cap in Hok. fold rows in Hok.
  assert (Hrows : Forall (fun r => 0 <= len r <= cap r /\ len r = sy)
                         (take (Z.to_nat w) rows)).
  { replace (Z.to_nat w) with (Z.to_nat w `min` Z.to_nat sx)%nat by lia.
    rewrite <- take_take. by apply Forall_take. }
  set (f := fun r : slice SurfacePoint => Slice (arr r) h).
  set (rows1 := (f <$> take (Z.to_nat w) rows) ++ drop (Z.to_nat w) rows).
  assert (Harr : arr <$> rows1 = arr <$> rows).
  { unfold rows1. rewrite fmap_app, <- list_fmap_compose.
    rewrite <- (take_drop (Z.to_nat w) rows) at 3.
    by rewrite fmap_app. }
  assert (Hl1 : length rows1 = length rows).
  { by rewrite <- (length_fmap arr), Harr, length_fmap. }
  eexists _, _. split.
  { apply Resize_state; [unfold cap; fold rows; lia|].
    fold rows. eapply Forall_impl; [exact Hrows|]. simpl. intros r [? ?]. lia. }
  split.
  { apply Resize_state; cbn [pts set_pts arr]; fold f rows rows1.
    - unfold cap. cbn [arr]. lia.
    - apply Forall_forall. intros r [i Hi]%list_elem_of_lookup.
      apply lookup_take_Some in Hi as [Hi Hlt].
      assert (Hc : (arr <$> rows1) !! i = Some (arr r))
        by (by rewrite list_lookup_fmap, Hi).
      rewrite Harr, list_lookup_fmap in Hc.
      destruct (rows !! i) as [r0|] eqn:Hr0; [|done].
      injection Hc as Hc. unfold cap. rewrite <- Hc.
      rewrite Forall_forall in Hall.
      destruct (Hall r0) as [? ?]; [|unfold cap in *; lia].
      apply (list_elem_of_lookup_2 _ i). by rewrite lookup_take_lt. }
  unfold grid, Pts, view. cbn [pts set_pts arr len]. fold f rows rows1.
  rewrite Hlen.
  transitivity (take (Z.to_nat sy) <$> (arr <$> take (Z.to_nat sx) rows1)).
  { rewrite take_app_length' by (rewrite length_fmap, length_take; lia).
    rewrite <- !list_fmap_compose. reflexivity. }
  rewrite fmap_take, Harr, <- fmap_take, <- list_fmap_compose.
  apply Forall_fmap_ext. eapply Forall_impl; [exact Hall|].
  simpl. intros r [_ ->]. done.
Qed.

Lemma Resize_round_trip_witness :
  exists s1 s2,
    Resize ramp4 2 1 = (s1, Ok tt)
    /\ Resize s1 4 2 = (s2, Ok tt)
    /\ grid s2 = grid ramp4.
Proof.
  apply (Resize_round_trip ramp4 4 2 2 1); [reflexivity|lia|lia].
Defined.

(** X7: two shrinks in a row expose the same grid as the second one
    alone. *)
Theorem Resize_shrink_twice (s : surface) (sx sy w1 h1 w2 h2 : Z) :
  rect_ok (pts s) sx sy = true ->
  0 <= w2 <= w1 -> w1 <= sx -> 0 <= h2 <= h1 -> h1 <= sy ->
  exists s1 s2 s2',
    Resize s w1 h1 = (s1, Ok tt)
    /\ Resize s1 w2 h2 = (s2, Ok tt)
    /\ Resize s w2 h2 = (s2', Ok tt)
    /\ grid s2 = grid s2'.
Proof.
  intros Hr Hw2 Hw1 Hh2 Hh1.
  destruct (Resize_shrink s sx sy w1 h1) as (s1 & HR1 & _ & Hr1 & Hg1);
    [done|lia|lia|].
  destruct (Resize_shrink s1 w1 h1 w2 h2) as (s2 & HR2 & _ & _ & Hg2);
    [done|lia|lia|].
  destruct (Resize_shrink s sx sy w2 h2) as (s2' & HR2' & _ & _ & Hg2');
    [done|lia|lia|].
  exists s1, s2, s2'. split; [done|]. split; [done|]. split; [done|].
  rewrite Hg2, Hg2', Hg1.
  rewrite fmap_take, take_take, <- list_fmap_compose.
  replace (Z.to_nat w2 `min` Z.to_nat w1)%nat with (Z.to_nat w2) by lia.
  f_equal. apply list_fmap_ext. intros _ row _. simpl.
  rewrite take_take. f_equal. lia.
Qed.

Lemma Resize_shrink_twice_witness :
  exists s1 s2 s2',
    Resize ramp4 3 2 = (s1, Ok tt)
    /\ Resize s1 2 1 = (s2, Ok tt)
    /\ Resize ramp4 2 1 = (s2', Ok tt)
    /\ grid s2 = grid s2'.
Proof.
  apply (Resize_shrink_twice ramp4 4 2 3 2 2 1); [reflexivity|lia..].
Defined.

(** X8: [Resize] is not atomic.  When the width is accepted
    (1 <= w <= capacity) and the height is outside the capacity of the
    first row, the call panics in the row loop with the width already
    set to [w]; no row and no sample has been touched. *)
Theorem Resize_row_panic (s : surface) (w h : Z) (row0 : slice SurfacePoint) :
  1 <= w <= cap (pts s) ->
  arr (pts s) !! 0%nat = Some row0 ->
  h < 0 \/ cap row0 < h ->
  Resize s w h
  = (set_pts s (Slice (arr (pts s)) w), Panic SliceBoundsOutOfRange).
Proof.
  intros Hw H0 Hh. unfold Resize.
  rewrite reslice_Ok by lia. cbn [arr len].
  rewrite seqZ_cons by lia. cbn [foldM].
  replace (index (Slice (arr (pts s)) w) 0) with (Ok row0)
    by (symmetry; apply index_Ok; simpl; split; [lia|done]).
  cbn [mbind result_bind]. rewrite reslice_panic by done. reflexivity.
Qed.

Lemma Resize_row_panic_witness :
  Resize ramp4 3 5
  = (set_pts ramp4 (Slice (arr (pts ramp4)) 3), Panic SliceBoundsOutOfRange).
Proof.
  apply (Resize_row_panic ramp4 3 5
           (Slice [mkPoint (F32.of_int 0) 0 F32.zero;
                   mkPoint (F32.of_int 0) 0 F32.zero] 2));
    [unfold cap; simpl; lia|reflexivity|right; unfold cap; simpl; lia].
Defined.

(** ** Flat height fields *)

Lemma unit_normal_flat (sc : float32) :
  finite sc = true ->
  feq (x_ (unit_normal sc F32.zero F32.zero)) F32.zero
  /\ y_ (unit_normal sc F32.zero F32.zero) = F32.one
  /\ feq (z_ (unit_normal sc F32.zero F32.zero)) F32.zero.
Proof.
  destruct sc as [[]|[]| |[] m e]; try done; intros _;
    repeat split; vm_compute; reflexivity.
Qed.

(** X9: on a height field that is flat, all samples at one finite
    height, with a finite height scale, every normal [Update] stores is
    vertical: its y component is 1 and its x and z components are zero
    (of either sign), for every grid size. *)
Theorem Update_flat_normals (s : surface) (m : Model)
    (xoff yoff sx sy : Z) (h0 : float32) :
  1 <= sx ->
  rect_ok (pts s) sx sy = true -> covers (nms s) sx sy = true ->
  spread s <> 0 \/ sx <= 1 \/ sy <= 1 ->
  (forall x y, 0 <= x < sx -> 0 <= y < sy -> Height (pt s x y) = h0) ->
  finite h0 = true -> finite (scale s) = true ->
  exists s' m',
    Update s m xoff yoff = Ok (s', m')
    /\ forall x y, 0 <= x < sx -> 0 <= y < sy ->
         exists n, index2 (nms s') x y = Ok n
                   /\ feq (x_ n) F32.zero /\ y_ n = F32.one
                   /\ feq (z_ n) F32.zero.
Proof.
  intros Hsx Hr Hc Hsp Hflat Hh0 Hsc.
  destruct (Update_Ok s m xoff yoff sx sy) as (norms & HU & HN); [done..|].
  apply rect_ok_Rect in Hr.
  eexists _, _. split; [exact HU|].
  intros x y Hx Hy. exists (nrm s sx sy x y).
  split; [by apply HN|].
  rewrite (nrm_slopes s sx sy x y) by done. cbv zeta.
  rewrite !Hflat by (done || in_range). rewrite sub_diag by done.
  replace (if (x =? 0) || (x =? sx - 1)
           then F32.mul F32.zero F32.two else F32.zero) with F32.zero
    by (by destruct ((x =? 0) || (x =? sx - 1))).
  replace (if (y =? 0) || (y =? sy - 1)
           then F32.mul F32.zero F32.two else F32.zero) with F32.zero
    by (by destruct ((y =? 0) || (y =? sy - 1))).
  by apply unit_normal_flat.
Qed.

Lemma Update_flat_normals_witness :
  exists s' m',
    Update (fresh 3 4 1 F32.one F32.two) (mkModel ∅ None) 0 0 = Ok (s', m')
    /\ forall x y, 0 <= x < 3 -> 0 <= y < 4 ->
         exists n, index2 (nms s') x y = Ok n
                   /\ feq (x_ n) F32.zero /\ y_ n = F32.one
                   /\ feq (z_ n) F32.zero.
Proof.
  apply (Update_flat_normals (fresh 3 4 1 F32.one F32.two) (mkModel ∅ None)
           0 0 3 4 F32.zero);
    [lia|reflexivity|reflexivity|left; discriminate| |reflexivity|reflexivity].
  intros x y Hx Hy.
  assert (Hxs : x = 0 \/ x = 1 \/ x = 2) by lia.
  assert (Hys : y = 0 \/ y = 1 \/ y = 2 \/ y = 3) by lia.
  destruct Hxs as [->|[->| ->]], Hys as [->|[->|[->| ->]]]; reflexivity.
Defined.

(** ** Where a quad lives in the buffers *)

Lemma take_drop_bind {A B : Type} (f : A -> list B) (n : nat) (l : list A)
    (k : nat) (a : A) :
  (forall a, length (f a) = n) -> l !! k = Some a ->
  take n (drop (k * n) (l ≫= f)) = f a.
Proof.
  intros Hn. revert k. induction l as [|a0 l IH]; intros k Hk; [done|].
  rewrite bind_cons. destruct k as [|k]; simpl in Hk.
  - injection Hk as ->. rewrite Nat.mul_0_l, drop_0.
    by rewrite take_app_length' by done.
  - replace (S k * n)%nat with (length (f a0) + k * n)%nat
      by (rewrite Hn; lia).
    rewrite drop_app_add. by apply IH.
Qed.

Lemma lookup_bind_singleton {A B : Type} (g : A -> B) (l : list A) (j : nat)
    (a : A) :
  l !! j = Some a -> (l ≫= fun y => [g y]) !! j = Some (g a).
Proof.
  revert j. induction l as [|a0 l IH]; intros j Hj; [done|].
  rewrite bind_cons. destruct j as [|j]; simpl in *; [by injection Hj as ->|].
  by apply IH.
Qed.

(** Quad (x, y) is the quad number x*(sy-1) + y of the two loops. *)
Lemma cells_lookup (sx sy x y : Z) :
  0 <= x < sx - 1 -> 0 <= y < sy - 1 ->
  cells sx sy !! Z.to_nat (x * (sy - 1) + y) = Some (x, y).
Proof.
  intros Hx Hy. unfold cells.
  assert (Hin : (seqZ 0 (sy - 1) ≫= fun y' => [(x, y')]) !! Z.to_nat y
                = Some (x, y)).
  { apply (lookup_bind_singleton (fun y' => (x, y'))).
    rewrite lookup_seqZ_lt by lia. f_equal. lia. }
  assert (Hout : seqZ 0 (sx - 1) !! Z.to_nat x = Some x).
  { rewrite lookup_seqZ_lt by lia. f_equal. lia. }
  pose proof (take_drop_bind
    (fun x' => seqZ 0 (sy - 1) ≫= fun y' => [(x', y')])
    (Z.to_nat (sy - 1)) (seqZ 0 (sx - 1)) (Z.to_nat x) x) as Htd.
  rewrite <- (lookup_take_lt _ (Z.to_nat (sy - 1))) in Hin by lia.
  rewrite <- Htd in Hin; [|intros x'|done].
  2:{ rewrite (length_bind_const _ 1%nat), length_seqZ; [lia|done]. }
  rewrite !lookup_take_lt, lookup_drop in Hin by lia.
  rewrite <- Hin. f_equal. nia.
Qed.

(** X10: the four buffers are parallel and row-major.  For the quad at
    (x, y), number k = x*(sy-1) + y, group k of the position buffer (12
    floats) holds its four corners with z = height * scale, group k of
    the texture buffer (16 floats) its four texture corners, each with
    the texture index and blend of the sample at (x, y), group k of the
    normal buffer the scratch normals of its four corners, and group k of
    the face buffer (6 indices) addresses, below 16384 quads, exactly the
    vertices 4k .. 4k+3 of this quad. *)
Theorem Update_quad_layout (s : surface) (m : Model)
    (xoff yoff sx sy x y : Z) :
  rect_ok (pts s) sx sy = true -> covers (nms s) sx sy = true ->
  spread s <> 0 ->
  0 <= x < sx - 1 -> 0 <= y < sy - 1 ->
  let k := Z.to_nat (x * (sy - 1) + y) in
  exists s' m' vbuf nbuf tbuf fbuf n0 n1 n2 n3,
    Update s m xoff yoff = Ok (s', m')
    /\ meshes m' !! 0 = Some (mkRegion 3 DynamicDraw false vbuf)
    /\ meshes m' !! 1 = Some (mkRegion 3 DynamicDraw false nbuf)
    /\ meshes m' !! 2 = Some (mkRegion 4 DynamicDraw false tbuf)
    /\ faces m' = Some (DynamicDraw, fbuf)
    /\ take 12 (drop (k * 12) vbuf)
       = quad_vb (scale s) x y (pt s x y) (pt s (x + 1) y)
                 (pt s x (y + 1)) (pt s (x + 1) (y + 1))
    /\ take 16 (drop (k * 16) tbuf)
       = quad_tb (tile s xoff yoff (x, y)) (pt s x y)
    /\ index2 (nms s') x y = Ok n0 /\ index2 (nms s') (x + 1) y = Ok n1
    /\ index2 (nms s') x (y + 1) = Ok n2
    /\ index2 (nms s') (x + 1) (y + 1) = Ok n3
    /\ take 12 (drop (k * 12) nbuf) = quad_nb n0 n1 n2 n3
    /\ take 6 (drop (k * 6) fbuf) = quad_fb (wrap16 (4 * Z.of_nat k))
    /\ (x * (sy - 1) + y < 16384 ->
        take 6 (drop (k * 6) fbuf)
        = let v := 4 * (x * (sy - 1) + y) in
          [v; v + 1; v + 2; v + 1; v + 3; v + 2]).
Proof.
  intros Hr Hc Hsp Hx Hy k.
  destruct (Update_Ok s m xoff yoff sx sy) as (norms & HU & HN);
    [lia|done|done|by left|].
  destruct (deliver_sink m (mesh s sx sy xoff yoff)) as (H0 & H1 & H2 & HF).
  pose proof (cells_lookup sx sy x y Hx Hy) as Hk. fold k in Hk.
  assert (Hkq : (k < length (cells sx sy))%nat) by (by eapply lookup_lt_Some).
  assert (Hfb : take 6 (drop (k * 6) (mesh_fb (length (cells sx sy))))
                = quad_fb (wrap16 (4 * Z.of_nat k))).
  { rewrite Nat.mul_comm. by apply mesh_fb_quad. }
  eexists _, _, _, _, _, _, _, _, _, _. split; [exact HU|].
  split; [exact H0|]. split; [exact H1|]. split; [exact H2|].
  split; [exact HF|]. cbn [mesh b_vb b_nb b_tb b_fb nms set_nms].
  split.
  { unfold mesh_vb. by rewrite (take_drop_bind _ 12 _ k (x, y)). }
  split.
  { unfold mesh_tb. by rewrite (take_drop_bind _ 16 _ k (x, y)). }
  split; [apply HN; lia|]. split; [apply HN; lia|].
  split; [apply HN; lia|]. split; [apply HN; lia|].
  split.
  { unfold mesh_nb. by rewrite (take_drop_bind _ 12 _ k (x, y)). }
  split; [exact Hfb|].
  intros Hsmall. rewrite Hfb, quad_fb_wrap. cbv zeta.
  replace (4 * Z.of_nat k) with (4 * (x * (sy - 1) + y)) by (unfold k; nia).
  rewrite Z.mod_small by nia. done.
Qed.

Lemma Update_quad_layout_witness :
  let s := ramp4 in
  let k := Z.to_nat (2 * (2 - 1) + 0) in
  exists s' m' vbuf nbuf tbuf fbuf n0 n1 n2 n3,
    Update s (mkModel ∅ None) 0 0 = Ok (s', m')
    /\ meshes m' !! 0 = Some (mkRegion 3 DynamicDraw false vbuf)
    /\ meshes m' !! 1 = Some (mkRegion 3 DynamicDraw false nbuf)
    /\ meshes m' !! 2 = Some (mkRegion 4 DynamicDraw false tbuf)
    /\ faces m' = Some (DynamicDraw, fbuf)
    /\ take 12 (drop (k * 12) vbuf)
       = quad_vb (scale s) 2 0 (pt s 2 0) (pt s (2 + 1) 0)
                 (pt s 2 (0 + 1)) (pt s (2 + 1) (0 + 1))
    /\ take 16 (drop (k * 16) tbuf)
       = quad_tb (tile s 0 0 (2, 0)) (pt s 2 0)
    /\ index2 (nms s') 2 0 = Ok n0 /\ index2 (nms s') (2 + 1) 0 = Ok n1
    /\ index2 (nms s') 2 (0 + 1) = Ok n2
    /\ index2 (nms s') (2 + 1) (0 + 1) = Ok n3
    /\ take 12 (drop (k * 12) nbuf) = quad_nb n0 n1 n2 n3
    /\ take 6 (drop (k * 6) fbuf) = quad_fb (wrap16 (4 * Z.of_nat k))
    /\ (2 * (2 - 1) + 0 < 16384 ->
        take 6 (drop (k * 6) fbuf)
        = let v := 4 * (2 * (2 - 1) + 0) in
          [v; v + 1; v + 2; v + 1; v + 3; v + 2]).
Proof.
  apply (Update_quad_layout ramp4 (mkModel ∅ None) 0 0 4 2 2 0);
    [reflexivity|reflexivity|discriminate|lia|lia].
Defined.

(** ** Offsets and the tile period *)

(** X11: the texture buffer depends on the patch offsets through their
    residues modulo the tile period only: two pairs of non-negative
    offsets, small enough for x+xo and y+yo not to overflow, that agree
    modulo spread give the same texture buffer. *)
Theorem Update_offsets_mod_spread (s : surface) (m : Model)
    (xo yo xo' yo' sx sy : Z) :
  1 <= sx ->
  rect_ok (pts s) sx sy = true -> covers (nms s) sx sy = true ->
  1 <= spread s ->
  0 <= xo -> 0 <= yo -> sx + xo <= 2 ^ 63 -> sy + yo <= 2 ^ 63 ->
  0 <= xo' -> 0 <= yo' -> sx + xo' <= 2 ^ 63 -> sy + yo' <= 2 ^ 63 ->
  xo mod spread s = xo' mod spread s ->
  yo mod spread s = yo' mod spread s ->
  exists s1 m1 s2 m2 tbuf,
    Update s m xo yo = Ok (s1, m1)
    /\ Update s m xo' yo' = Ok (s2, m2)
    /\ meshes m1 !! 2 = Some (mkRegion 4 DynamicDraw false tbuf)
    /\ meshes m2 !! 2 = Some (mkRegion 4 DynamicDraw false tbuf).
Proof.
  intros Hsx Hr Hc Hsp Hxo Hyo Hxm Hym Hxo' Hyo' Hxm' Hym' Ex Ey.
  destruct (Update_Ok s m xo yo sx sy) as (n1 & HU1 & _);
    [done|done|done|left; lia|].
  destruct (Update_Ok s m xo' yo' sx sy) as (n2 & HU2 & _);
    [done|done|done|left; lia|].
  destruct (deliver_sink m (mesh s sx sy xo yo)) as (_ & _ & H1 & _).
  destruct (deliver_sink m (mesh s sx sy xo' yo')) as (_ & _ & H2 & _).
  cbn [mesh b_tb] in H1, H2.
  assert (E : mesh_tb s sx sy xo' yo' = mesh_tb s sx sy xo yo).
  { unfold mesh_tb. apply Forall_bind_ext, Forall_forall.
    intros c [Hx Hy]%elem_of_cells. unfold tile.
    rewrite !rem_offset by lia.
    rewrite (Zplus_mod c.1 xo'), (Zplus_mod c.2 yo'), <- Ex, <- Ey.
    by rewrite <- !Zplus_mod. }
  rewrite E in H2.
  eexists _, _, _, _, _. split; [exact HU1|]. split; [exact HU2|].
  split; [exact H1|exact H2].
Qed.

Lemma Update_offsets_mod_spread_witness :
  exists s1 m1 s2 m2 tbuf,
    Update (fresh 3 3 4 F32.one F32.one) (mkModel ∅ None) 1 6 = Ok (s1, m1)
    /\ Update (fresh 3 3 4 F32.one F32.one) (mkModel ∅ None) 9 2
       = Ok (s2, m2)
    /\ meshes m1 !! 2 = Some (mkRegion 4 DynamicDraw false tbuf)
    /\ meshes m2 !! 2 = Some (mkRegion 4 DynamicDraw false tbuf).
Proof.
  apply (Update_offsets_mod_spread (fresh 3 3 4 F32.one F32.one)
           (mkModel ∅ None) 1 6 9 2 3 3);
    [lia|reflexivity|reflexivity|simpl; lia|lia|lia|lia|lia|lia|lia|lia|lia
    |reflexivity|reflexivity].
Defined.

(** X12: with a tile period of 1 the offsets do not matter at all, not
    even negative ones or ones at the end of the [int] range: every
    offset pair gives the texture buffer of offset (0,0). *)
Theorem Update_spread_one_any_offset (s : surface) (m : Model)
    (xo yo sx sy : Z) :
  1 <= sx ->
  rect_ok (pts s) sx sy = true -> covers (nms s) sx sy = true ->
  spread s = 1 ->
  exists s1 m1 s2 m2 tbuf,
    Update s m xo yo = Ok (s1, m1)
    /\ Update s m 0 0 = Ok (s2, m2)
    /\ meshes m1 !! 2 = Some (mkRegion 4 DynamicDraw false tbuf)
    /\ meshes m2 !! 2 = Some (mkRegion 4 DynamicDraw false tbuf).
Proof.
  intros Hsx Hr Hc Hsp.
  destruct (Update_Ok s m xo yo sx sy) as (n1 & HU1 & _);
    [done|done|done|left; lia|].
  destruct (Update_Ok s m 0 0 sx sy) as (n2 & HU2 & _);
    [done|done|done|left; lia|].
  destruct (deliver_sink m (mesh s sx sy xo yo)) as (_ & _ & H1 & _).
  destruct (deliver_sink m (mesh s sx sy 0 0)) as (_ & _ & H2 & _).
  cbn [mesh b_tb] in H1, H2.
  assert (E : mesh_tb s sx sy xo yo = mesh_tb s sx sy 0 0).
  { unfold mesh_tb. apply Forall_bind_ext, Forall_forall.
    intros c _. unfold tile. rewrite Hsp. by rewrite !Z.rem_1_r. }
  rewrite E in H1.
  eexists _, _, _, _, _. split; [exact HU1|]. split; [exact HU2|].
  split; [exact H1|exact H2].
Qed.

Lemma Update_spread_one_any_offset_witness :
  exists s1 m1 s2 m2 tbuf,
    Update (fresh 3 3 1 F32.one F32.one) (mkModel ∅ None) (-7) (2 ^ 63 - 1)
    = Ok (s1, m1)
    /\ Update (fresh 3 3 1 F32.one F32.one) (mkModel ∅ None) 0 0
       = Ok (s2, m2)
    /\ meshes m1 !! 2 = Some (mkRegion 4 DynamicDraw false tbuf)
    /\ meshes m2 !! 2 = Some (mkRegion 4 DynamicDraw false tbuf).
Proof.
  apply (Update_spread_one_any_offset (fresh 3 3 1 F32.one F32.one)
           (mkModel ∅ None) (-7) (2 ^ 63 - 1) 3 3);
    [lia|reflexivity|reflexivity|reflexivity].
Defined.

(** ** The seam correction, for all inputs *)

Lemma eqb_zero (a : float32) :
  F32.eqb a F32.zero = true -> F32.add a F32.border = F32.border.
Proof. destruct a as [[]|[]| |[] m e]; try discriminate; reflexivity. Qed.

Lemma seam_low (a : float32) :
  F32.eqb (if F32.eqb a F32.zero then F32.add a F32.border else a) F32.zero
  = false.
Proof.
  destruct (F32.eqb a F32.zero) eqn:E; [|done].
  by rewrite eqb_zero.
Qed.

(** X13: whatever the tile period, the ratio and the remainders are
    (negative, zero, NaN included), the packer keeps the quad an
    axis-parallel rectangle in texture space, the two left corners share
    their u, the two right ones theirs, the two top corners share their v
    and the two bottom ones theirs, and the left u and the bottom v it
    writes are never equal to 0. *)
Theorem uv_corners_seam (sp : Z) (r : float32) (rx ry : Z) :
  let t := uv_corners sp r rx ry in
  uv0 t = uv4 t /\ uv2 t = uv6 t /\ uv1 t = uv3 t /\ uv5 t = uv7 t
  /\ F32.eqb (uv0 t) F32.zero = false
  /\ F32.eqb (uv5 t) F32.zero = false.
Proof.
  unfold uv_corners. cbv zeta.
  generalize (F32.div r (F32.of_int sp)).
  generalize (F32.mul (F32.div (F32.of_int rx) (F32.of_int sp)) r).
  generalize (F32.mul
    (F32.sub (F32.sub F32.one (F32.div (F32.of_int ry) (F32.of_int sp)))
             (F32.div F32.one (F32.of_int sp))) r).
  intros v u w.
  pose proof (seam_low u) as Hu. pose proof (seam_low v) as Hv.
  destruct (F32.eqb u F32.zero), (F32.eqb (F32.add u w) r),
    (F32.eqb v F32.zero), (F32.eqb (F32.add v w) r); cbn; done.
Qed.

(** ** From the constructor to the first rebuild *)

Lemma fresh_scratch (sx sy sp : Z) (ratio sc : float32) :
  0 <= sx -> 0 <= sy ->
  rect_ok (nms (fresh sx sy sp ratio sc)) sx sy = true.
Proof.
  intros Hsx Hsy. apply rect_ok_spec. unfold cap, view. simpl.
  rewrite length_replicate, take_replicate.
  split; [lia|]. split; [done|].
  apply Forall_forall. intros r [-> _]%elem_of_replicate.
  unfold cap. simpl. rewrite length_replicate. lia.
Qed.

(** X14: the constructor establishes what [Update] relies on.  For
    sx >= 1, sy >= 0 and a tile period other than 0, [NewSurface] returns
    a surface with a sx by sy grid and a normal scratch of exactly that
    shape, and [Update] on it completes for every offset pair, leaving
    the grid as constructed. *)
Theorem NewSurface_ready (sx sy sp : Z) (ratio sc : float32) (m : Model)
    (xoff yoff : Z) :
  1 <= sx -> 0 <= sy -> sp <> 0 ->
  exists s s' m',
    NewSurface sx sy sp ratio sc = Ok s
    /\ rect_ok (pts s) sx sy = true /\ rect_ok (nms s) sx sy = true
    /\ Update s m xoff yoff = Ok (s', m')
    /\ grid s' = replicate (Z.to_nat sx) (replicate (Z.to_nat sy) zeroPoint).
Proof.
  intros Hsx Hsy Hsp.
  destruct (fresh_shape sx sy sp ratio sc) as [Hr Hc]; [lia|lia|].
  destruct (Update_Ok (fresh sx sy sp ratio sc) m xoff yoff sx sy)
    as (norms & HU & _); [done|done|done|by left|].
  eexists _, _, _. split; [apply newSurface_fresh; lia|].
  split; [done|]. split; [apply fresh_scratch; lia|].
  split; [exact HU|]. apply grid_fresh.
Qed.

Lemma NewSurface_ready_witness :
  exists s s' m',
    NewSurface 2 3 4 F32.one F32.two = Ok s
    /\ rect_ok (pts s) 2 3 = true /\ rect_ok (nms s) 2 3 = true
    /\ Update s (mkModel ∅ None) 5 (-1) = Ok (s', m')
    /\ grid s' = replicate (Z.to_nat 2) (replicate (Z.to_nat 3) zeroPoint).
Proof.
  apply (NewSurface_ready 2 3 4 F32.one F32.two (mkModel ∅ None) 5 (-1));
    [lia|lia|lia].
Defined.

(** X15: the patch offsets reach the texture buffer only.  Two rebuilds
    of the same surface with different offsets return the same surface
    (the same normal scratch) and deliver the same positions, normals and
    indices. *)
Theorem Update_offsets_only_texture (s : surface) (m : Model)
    (xo yo xo' yo' sx sy : Z) :
  1 <= sx ->
  rect_ok (pts s) sx sy = true -> covers (nms s) sx sy = true ->
  spread s <> 0 \/ sx <= 1 \/ sy <= 1 ->
  exists s' m1 m2,
    Update s m xo yo = Ok (s', m1)
    /\ Update s m xo' yo' = Ok (s', m2)
    /\ meshes m1 !! 0 = meshes m2 !! 0
    /\ meshes m1 !! 1 = meshes m2 !! 1
    /\ faces m1 = faces m2.
Proof.
  intros Hsx Hr Hc Hsp.
  pose proof (rect_ok_len _ _ _ Hr) as Hlen.
  pose proof (rect_ok_Rect _ _ _ Hr) as HR.
  pose proof (covers_Covers _ _ _ Hc) as HC.
  destruct (rebuild_shape s xo yo sx sy) as (n1 & H1 & _ & _); [done..|].
  destruct (rebuild_shape s xo' yo' sx sy) as (n2 & H2 & _ & _); [done..|].
  assert (n2 = n1) as ->.
  { destruct (HR 0) as (row0 & Hrow0 & _ & Hrow); [lia|].
    unfold rebuild in H1, H2. rewrite Hrow0 in H1, H2.
    cbn [mbind result_bind] in H1, H2.
    destruct (normals s (len (pts s)) (len row0)) as [n|e]; [|done].
    cbn [mbind result_bind] in H1, H2.
    apply bind_Ok in H1 as (b1 & _ & [= -> _]).
    apply bind_Ok in H2 as (b2 & _ & [= -> _]). done. }
  destruct (deliver_sink m (mesh s sx sy xo yo)) as (A0 & A1 & _ & AF).
  destruct (deliver_sink m (mesh s sx sy xo' yo')) as (B0 & B1 & _ & BF).
  eexists _, _, _.
  split; [by apply Update_rebuild|]. split; [by apply Update_rebuild|].
  rewrite A0, A1, AF, B0, B1, BF. done.
Qed.

Lemma Update_offsets_only_texture_witness :
  exists s' m1 m2,
    Update ramp4 (mkModel ∅ None) 0 0 = Ok (s', m1)
    /\ Update ramp4 (mkModel ∅ None) 3 (-2) = Ok (s', m2)
    /\ meshes m1 !! 0 = meshes m2 !! 0
    /\ meshes m1 !! 1 = meshes m2 !! 1
    /\ faces m1 = faces m2.
Proof.
  apply (Update_offsets_only_texture ramp4 (mkModel ∅ None) 0 0 3 (-2) 4 2);
    [lia|reflexivity|reflexivity|left; discriminate].
Defined.
